(** * Person-card graph data: a shallow embedding of
    [mgt-person-card.graph.ts] and the properties of its specification.

    The TypeScript module assembles the data of a person card: it consults a
    cache, builds a batch of Graph requests, executes it, merges the
    responses into a plain record, fetches the extended profile, drops the
    disabled direct reports and writes the record back to the cache.  Two
    further functions post a chat and a chat message.

    JavaScript values are embedded as a small JSON-like datatype, the
    asynchronous function as a state-and-exception monad over a world made
    of the cache store, the clock and the log of calls that reached the
    Graph client. *)

From Stdlib Require Import ZArith Lia Ascii String.
From stdpp Require Import base option strings list gmap.

Local Open Scope string_scope.
Local Open Scope Z_scope.

Set Warnings "-register-all".

(** ** JavaScript values *)

(** What a parsed response body, a property of the entity reference or a
    request payload can be.  Numbers are the integral ones (timestamps,
    counts, lengths); [VUndefined] is what reading an absent property
    yields. *)
Inductive value : Type :=
  | VUndefined
  | VNull
  | VBool (b : bool)
  | VNum (n : Z)
  | VStr (s : string)
  | VArr (items : list value)
  | VObj (fields : list (string * value)).

(** Own property of an object literal, by key. *)
Fixpoint own (fields : list (string * value)) (k : string) : option value :=
  match fields with
  | [] => None
  | (k', v) :: rest => if decide (k' = k) then Some v else own rest k
  end.

(** The [in] operator on an object. *)
Definition has_key (fields : list (string * value)) (k : string) : bool :=
  match own fields k with Some _ => true | None => false end.

(** ToBoolean. *)
Definition truthy (v : value) : bool :=
  match v with
  | VUndefined | VNull => false
  | VBool b => b
  | VNum n => negb (n =? 0)
  | VStr s => negb (bool_decide (s = EmptyString))
  | VArr _ | VObj _ => true
  end.

(** [===] against a string literal. *)
Definition strict_eq_str (v : value) (s : string) : bool :=
  match v with
  | VStr s' => bool_decide (s' = s)
  | _ => false
  end.

(** ** Outcomes: a promise resolves or rejects *)

Inductive Error : Type :=
  | TypeError              (* raised by the language itself *)
  | RemoteFailure.         (* raised by a collaborator: batch, Graph client *)

Inductive Outcome (A : Type) : Type :=
  | Resolved (a : A)
  | Rejected (e : Error).
Arguments Resolved {A} a.
Arguments Rejected {A} e.

#[global] Instance Outcome_ret : MRet Outcome := fun _ a => Resolved a.
#[global] Instance Outcome_bind : MBind Outcome := fun _ _ f m =>
  match m with
  | Resolved a => f a
  | Rejected e => Rejected e
  end.

(** Property read [v.k].  Reading from [undefined] or [null] raises a
    TypeError; an object yields its own property or [undefined]; arrays and
    strings have a [length].  The only names the module reads are [value],
    [length], [accountEnabled], [subclass] and [class], none of which is
    supplied by a built-in prototype apart from [length]. *)
Definition get (v : value) (k : string) : Outcome value :=
  match v with
  | VUndefined | VNull => Rejected TypeError
  | VObj fields => Resolved (default VUndefined (own fields k))
  | VArr items =>
      Resolved (if decide (k = "length") then VNum (Z.of_nat (length items)) else VUndefined)
  | VStr s =>
      Resolved (if decide (k = "length") then VNum (Z.of_nat (String.length s)) else VUndefined)
  | VBool _ | VNum _ => Resolved VUndefined
  end.

(** Optional chaining [v?.k]: [undefined] on a nullish receiver. *)
Definition get_opt (v : value) (k : string) : value :=
  match get v k with
  | Resolved x => x
  | Rejected _ => VUndefined
  end.

(** [Array.prototype.filter] with a callback that may raise. *)
Fixpoint js_filter (f : value -> Outcome bool) (items : list value) : Outcome (list value) :=
  match items with
  | [] => Resolved []
  | x :: rest =>
      keep ← f x;
      rest' ← js_filter f rest;
      Resolved (if keep : bool then x :: rest' else rest')
  end.

(** ** Collaborator interfaces *)

(** A request registered in a batch: [batch.get(id, resource, scopes?, headers?)]. *)
Record BatchRequest : Type := mkBatchRequest {
  br_id : string;
  br_resource : string;
  br_scopes : option (list string);
  br_headers : option (list (string * string))
}.

(** The batch object: the requests registered so far, oldest first. *)
Abbreviation IBatch := (list BatchRequest).

Definition batch_get (batch : IBatch) (id resource : string)
    (scopes : option (list string)) (headers : option (list (string * string))) : IBatch :=
  batch ++ [mkBatchRequest id resource scopes headers].

Record BatchResponse : Type := mkBatchResponse {
  resp_id : string;
  resp_index : Z;
  content : value;
  resp_headers : list string
}.

(** A call through the Graph client's request builder:
    [graph.api(path).version(v).header(k, v).middlewareOptions(prepScopes(scopes))]. *)
Record GraphRequest : Type := mkGraphRequest {
  gr_path : string;
  gr_version : option string;
  gr_headers : list (string * string);
  gr_scopes : list string
}.

(** The person-card record: a plain object keyed by section name. *)
Abbreviation MgtPersonCardState := (gmap string value).

(** [CacheCardState extends MgtPersonCardState, CacheItem]. *)
Record CacheCardState : Type := mkCacheCardState {
  state : MgtPersonCardState;
  timeCached : option Z
}.

(** The entity reference: its id and the rest of its properties. *)
Record IDynamicPerson : Type := mkPerson {
  id : string;
  props : list (string * value)
}.

Record OrganizationSection : Type := { showWorksWith : bool }.

(** [MgtPersonCardConfig.sections]. *)
Record Sections : Type := {
  organization : option OrganizationSection;
  mailMessages : bool;
  files : bool;
  profile : bool
}.

(** [CacheService.config], the two periods the module reads. *)
Record CacheConfig : Type := {
  users_invalidationPeriod : option Z;
  defaultInvalidationPeriod : Z
}.

(** What reached the Graph client. *)
Inductive Call : Type :=
  | CreateBatch
  | ExecuteAll (batch : IBatch)
  | ApiGet (req : GraphRequest)
  | ApiPost (req : GraphRequest) (body : value).

(** The process-wide configuration and the remote side: how the batch
    endpoint and the Graph client answer ([None] stands for a thrown
    error), and how long each call takes. *)
Record Environment : Type := {
  sections : Sections;
  cacheConfig : CacheConfig;
  executeAll_answer : IBatch -> option (list (string * BatchResponse));
  get_answer : GraphRequest -> option value;
  post_answer : GraphRequest -> value -> option value;
  latency : Call -> Z
}.

Record World : Type := mkWorld {
  cache : gmap string CacheCardState;
  clock : Z;
  calls : list Call
}.

(** ** The monad of asynchronous code *)

Definition Async (A : Type) : Type := World -> Outcome A * World.

#[global] Instance Async_ret : MRet Async := fun _ a w => (Resolved a, w).
#[global] Instance Async_bind : MBind Async := fun _ _ f m w =>
  match m w with
  | (Resolved a, w') => f a w'
  | (Rejected e, w') => (Rejected e, w')
  end.

(** A synchronous computation inside an async function. *)
Definition lift {A} (o : Outcome A) : Async A := fun w => (o, w).

(** [try { m } catch { }]: the result when there is one. *)
Definition try_catch {A} (m : Async A) : Async (option A) := fun w =>
  match m w with
  | (Resolved a, w') => (Resolved (Some a), w')
  | (Rejected _, w') => (Resolved None, w')
  end.

Definition Date_now : Async Z := fun w => (Resolved (clock w), w).

(** A call that reaches the network: logged, and the clock moves on. *)
Definition remote {A} (env : Environment) (c : Call) (answer : option A) : Async A := fun w =>
  let w' := mkWorld (cache w) (clock w + latency env c) (calls w ++ [c]) in
  match answer with
  | Some a => (Resolved a, w')
  | None => (Rejected RemoteFailure, w')
  end.

(** Modelled from the spec: the cache store of [CacheService], which is not
    part of this module.  [getValue(key)] yields the card state stored under
    the key, or nothing. *)
Definition cache_getValue (key : string) : Async (option CacheCardState) := fun w =>
  (Resolved (cache w !! key), w).

(** Modelled from the spec: [putValue] of the same store; the entry written
    is the record plus the time of the write, and it replaces any prior
    entry under the key. *)
Definition cache_putValue (key : string) (item : MgtPersonCardState) : Async unit := fun w =>
  (Resolved tt,
   mkWorld (<[key := mkCacheCardState item (Some (clock w))]> (cache w)) (clock w) (calls w)).

Definition graph_createBatch (env : Environment) : Async IBatch := fun w =>
  (Resolved [], mkWorld (cache w) (clock w) (calls w ++ [CreateBatch])).

Definition batch_executeAll (env : Environment) (batch : IBatch)
    : Async (list (string * BatchResponse)) :=
  remote env (ExecuteAll batch) (executeAll_answer env batch).

Definition api_get (env : Environment) (req : GraphRequest) : Async value :=
  remote env (ApiGet req) (get_answer env req).

Definition api_post (env : Environment) (req : GraphRequest) (body : value) : Async value :=
  remote env (ApiPost req body) (post_answer env req body).

(** ** The module *)

Definition userProperties : string :=
  "businessPhones,companyName,department,displayName,givenName,jobTitle,mail,mobilePhone,officeLocation,preferredLanguage,surname,userPrincipalName,id,accountEnabled".

Module batchKeys.
Definition directReports : string := "directReports".
Definition files : string := "files".
Definition messages : string := "messages".
Definition people : string := "people".
Definition person : string := "person".
End batchKeys.

(** [users.invalidationPeriod || defaultInvalidationPeriod]. *)
Definition getCardStateInvalidationTime (env : Environment) : Z :=
  match users_invalidationPeriod (cacheConfig env) with
  | Some p => if p =? 0 then defaultInvalidationPeriod (cacheConfig env) else p
  | None => defaultInvalidationPeriod (cacheConfig env)
  end.

Definition validPeopleScopes : list string := ["People.Read.All"].
Definition validMailSearchScopes : list string := ["Mail.ReadBasic"; "Mail.Read"; "Mail.ReadWrite"].
Definition validProfileScopes : list string := ["User.Read.All"; "User.ReadWrite.All"].
Definition validCreateChatScopes : list string := ["Chat.Create"; "Chat.ReadWrite"].
Definition validSendChatMessageScopes : list string := ["ChatMessage.Send"; "Chat.ReadWrite"].

(** The double quote of the [$search] expression. *)
Definition dquote : string := String "034"%char EmptyString.

(** A string in a condition: [null] and the empty string are falsy. *)
Definition nonEmpty (s : option string) : bool :=
  match s with
  | Some s' => negb (bool_decide (s' = EmptyString))
  | None => false
  end.

Section PersonCard.

(** Imported from sibling modules of the repository: the scope lists of
    [graph.user] and [graph.files], and the e-mail address the entity
    reference carries, [null] when there is none. *)
Variable validUserByIdScopes : list string.
Variable validInsightScopes : list string.
Variable getEmailFromGraphEntity : IDynamicPerson -> option string.

(** The comparison [v > 0] on an operand that is a string, an array or an
    object goes through ToPrimitive and StringToNumber; these are not
    reproduced, the verdict on such operands is a parameter. *)
Variable coerced_gt0 : value -> Outcome bool.

Definition js_gt0 (v : value) : Outcome bool :=
  match v with
  | VUndefined => Resolved false
  | VNull => Resolved false
  | VBool b => Resolved b
  | VNum n => Resolved (0 <? n)
  | VStr _ | VArr _ | VObj _ => coerced_gt0 v
  end.

Definition buildOrgStructureRequest (batch : IBatch) (userId : string) : IBatch :=
  let expandManagers := "manager($levels=max;$select=" +:+ userProperties +:+ ")" in
  let batch :=
    batch_get batch batchKeys.person
      ("users/" +:+ userId +:+ "?$expand=" +:+ expandManagers
         +:+ "&$select=" +:+ userProperties +:+ "&$count=true")
      (Some validUserByIdScopes)
      (Some [("ConsistencyLevel", "eventual")]) in
  batch_get batch batchKeys.directReports
    ("users/" +:+ userId +:+ "/directReports?$select=" +:+ userProperties)
    None None.

Definition buildWorksWithRequest (batch : IBatch) (userId : string) : IBatch :=
  batch_get batch batchKeys.people
    ("users/" +:+ userId +:+ "/people?$filter=personType/class eq 'Person'")
    (Some validPeopleScopes) None.

Definition buildMessagesWithUserRequest (batch : IBatch) (emailAddress : string) : IBatch :=
  batch_get batch batchKeys.messages
    ("me/messages?$search=" +:+ dquote +:+ "from:" +:+ emailAddress +:+ dquote)
    (Some validMailSearchScopes) None.

Definition buildFilesRequest (batch : IBatch) (emailAddress : option string) : IBatch :=
  let request :=
    match emailAddress with
    | Some address =>
        if nonEmpty emailAddress
        then "me/insights/shared?$filter=lastshared/sharedby/address eq '" +:+ address +:+ "'"
        else "me/insights/used"
    | None => "me/insights/used"
    end in
  batch_get batch batchKeys.files request (Some validInsightScopes) None.

Definition getProfile (env : Environment) (userId : string) : Async value :=
  api_get env
    (mkGraphRequest ("/users/" +:+ userId +:+ "/profile") (Some "beta") [] validProfileScopes).

(** Lines 63-66: the entity is a contact or a group. *)
Definition isContactOrGroup (personDetails : IDynamicPerson) : Outcome bool :=
  if has_key (props personDetails) "classification" then Resolved true
  else if has_key (props personDetails) "personType" then
    let personType := default VUndefined (own (props personDetails) "personType") in
    subclass ← get personType "subclass";
    if strict_eq_str subclass "PersonalContact" then Resolved true
    else
      class ← get personType "class";
      Resolved (strict_eq_str class "Group")
  else Resolved false.

(** Lines 70-86: the requests registered in the batch. *)
Definition enqueueRequests (env : Environment) (batch : IBatch) (userId : string)
    (email : option string) (isMe contactOrGroup : bool) : IBatch :=
  let batch :=
    if negb contactOrGroup then
      match organization (sections env) with
      | Some org =>
          let batch := buildOrgStructureRequest batch userId in
          if showWorksWith org then buildWorksWithRequest batch userId else batch
      | None => batch
      end
    else batch in
  let batch :=
    match email with
    | Some address =>
        if mailMessages (sections env) && nonEmpty email
        then buildMessagesWithUserRequest batch address
        else batch
    | None => batch
    end in
  if files (sections env)
  then buildFilesRequest batch (if isMe then None else email)
  else batch.

(** Line 99: [value.content?.value || value.content]. *)
Definition payload (response : BatchResponse) : value :=
  let v := get_opt (content response) "value" in
  if truthy v then v else content response.

(** Lines 96-101: the loop over the response map. *)
Definition mergeResponses (response : list (string * BatchResponse))
    (data : MgtPersonCardState) : MgtPersonCardState :=
  foldl (fun data '(key, value) => <[key := payload value]> data) data response.

(** Lines 114-117: disabled users are filtered out of the direct reports. *)
Definition filterDirectReports (data : MgtPersonCardState) : Outcome MgtPersonCardState :=
  let directReports := default VUndefined (data !! "directReports") in
  if truthy directReports then
    len ← get directReports "length";
    positive ← js_gt0 len;
    if positive : bool then
      match directReports with
      | VArr reports =>
          kept ← js_filter
                   (fun report =>
                      accountEnabled ← get report "accountEnabled";
                      Resolved (truthy accountEnabled))
                   reports;
          Resolved (<["directReports" := VArr kept]> data)
      | _ => Rejected TypeError
      end
    else Resolved data
  else Resolved data.

Definition isFresh (env : Environment) (now : Z) (cardState : CacheCardState) : bool :=
  match timeCached cardState with
  | Some t => now - t <? getCardStateInvalidationTime env
  | None => false
  end.

(** Lines 68-112: the batch is created, filled and executed, and its
    responses and the extended profile are gathered into a fresh record.
    Both remote calls sit in a [try] whose [catch] does nothing. *)
Definition gatherCardData (env : Environment) (userId : string) (email : option string)
    (isMe contactOrGroup : bool) : Async MgtPersonCardState :=
  batch ← graph_createBatch env;
  let batch := enqueueRequests env batch userId email isMe contactOrGroup in
  response ← try_catch (batch_executeAll env batch);
  let data : MgtPersonCardState := ∅ in
  let data :=
    match response with
    | Some response => mergeResponses response data
    | None => data
    end in
  if negb contactOrGroup && profile (sections env) then
    fetched ← try_catch (getProfile env userId);
    mret (match fetched with
          | Some profile => if truthy profile then <["profile" := profile]> data else data
          | None => data
          end)
  else mret data.

Definition getPersonCardGraphData (env : Environment) (personDetails : IDynamicPerson)
    (isMe : bool) : Async CacheCardState :=
  let userId := id personDetails in
  let email := getEmailFromGraphEntity personDetails in
  cardState ← cache_getValue userId;
  now ← Date_now;
  match cardState ≫= (fun c => if isFresh env now c then Some c else None) with
  | Some cached => mret cached
  | None =>
      contactOrGroup ← lift (isContactOrGroup personDetails);
      data ← gatherCardData env userId email isMe contactOrGroup;
      data ← lift (filterDirectReports data);
      _ ← cache_putValue userId data;
      mret (mkCacheCardState data None)
  end.

Definition createChat (env : Environment) (person user : string) : Async value :=
  let chatData :=
    VObj [("chatType", VStr "oneOnOne");
          ("members",
           VArr [VObj [("@odata.type", VStr "#microsoft.graph.aadUserConversationMember");
                       ("roles", VArr [VStr "owner"]);
                       ("user@odata.bind",
                        VStr ("https://graph.microsoft.com/v1.0/users('" +:+ user +:+ "')"))];
                 VObj [("@odata.type", VStr "#microsoft.graph.aadUserConversationMember");
                       ("roles", VArr [VStr "owner"]);
                       ("user@odata.bind",
                        VStr ("https://graph.microsoft.com/v1.0/users('" +:+ person +:+ "')"))]])] in
  api_post env
    (mkGraphRequest "/chats" None [("Cache-Control", "no-store")] validCreateChatScopes)
    chatData.

Definition sendMessage (env : Environment) (chatId : string) (messageData : value)
    : Async value :=
  api_post env
    (mkGraphRequest ("/chats/" +:+ chatId +:+ "/messages") None
       [("Cache-Control", "no-store")] validSendChatMessageScopes)
    messageData.

End PersonCard.

(** ** Vocabulary of the properties *)

(** The cache holds nothing usable for the key: no entry, or an entry that
    is no longer fresh at the current time. *)
Definition staleOrAbsent (env : Environment) (w : World) (key : string) : Prop :=
  match cache w !! key with
  | Some cardState => isFresh env (clock w) cardState = false
  | None => True
  end.

Definition nullish (v : value) : bool :=
  match v with
  | VUndefined | VNull => true
  | _ => false
  end.

(** The declared type of [directReports]: an array whose entries can be
    read by the filter callback. *)
Definition isUserList (v : value) : bool :=
  match v with
  | VArr reports => forallb (fun r => negb (nullish r)) reports
  | _ => false
  end.

(** What the filter callback sees in a report that is not nullish. *)
Definition enabled (report : value) : bool := truthy (get_opt report "accountEnabled").

(** The rule of the data model for a contact or a group: a [classification]
    field is present, or the [personType] descriptor has subclass
    PersonalContact or class Group. *)
Definition classifiedContactOrGroup (personDetails : IDynamicPerson) : Prop :=
  has_key (props personDetails) "classification" = true ∨
  ∃ personType, own (props personDetails) "personType" = Some personType ∧
    (get personType "subclass" = Resolved (VStr "PersonalContact") ∨
     get personType "class" = Resolved (VStr "Group")).


(** A card state whose list of direct reports, if it has one, holds only
    reports with a truthy [accountEnabled]. *)
Definition onlyEnabledReports (data : MgtPersonCardState) : Prop :=
  ∀ reports r,
    data !! "directReports" = Some (VArr reports) ->
    r ∈ reports ->
    truthy (get_opt r "accountEnabled") = true.

(** The request of the profile fetch. *)
Definition profileRequest (userId : string) : GraphRequest :=
  mkGraphRequest ("/users/" +:+ userId +:+ "/profile") (Some "beta") [] validProfileScopes.




(** ** Sample data *)

Module Sample.

Definition mailOf (personDetails : IDynamicPerson) : option string :=
  match own (props personDetails) "mail" with
  | Some (VStr address) => Some address
  | _ => None
  end.

Definition userScopes : list string := ["User.Read.All"].
Definition insightScopes : list string := ["Sites.Read.All"].
Definition noCoercion (v : value) : Outcome bool := Resolved false.

Definition allSections : Sections :=
  {| organization := Some {| showWorksWith := true |};
     mailMessages := true; files := true; profile := true |}.

Definition hourlyCache : CacheConfig :=
  {| users_invalidationPeriod := None; defaultInvalidationPeriod := 3600000 |}.

Definition response (body : value) : BatchResponse := mkBatchResponse "1" 0 body [].

Definition ann : value := VObj [("id", VStr "a"); ("accountEnabled", VBool true)].
Definition bob : value := VObj [("id", VStr "b"); ("accountEnabled", VBool false)].
Definition cho : value := VObj [("id", VStr "c")].

Definition orgResponses : list (string * BatchResponse) :=
  [("person", response (VObj [("displayName", VStr "Uma")]));
   ("directReports", response (VObj [("value", VArr [ann; bob; cho])]))].

(** The batch answers, the profile endpoint fails. *)
Definition env : Environment :=
  {| sections := allSections;
     cacheConfig := hourlyCache;
     executeAll_answer := fun _ => Some orgResponses;
     get_answer := fun _ => None;
     post_answer := fun _ body => Some body;
     latency := fun _ => 5 |}.

(** Nothing answers. *)
Definition offline : Environment :=
  {| sections := allSections;
     cacheConfig := hourlyCache;
     executeAll_answer := fun _ => None;
     get_answer := fun _ => None;
     post_answer := fun _ _ => None;
     latency := fun _ => 5 |}.

Definition u1 : IDynamicPerson := mkPerson "u1" [("mail", VStr "u1@x.com")].
Definition team : IDynamicPerson :=
  mkPerson "g1" [("mail", VStr "team@x.com"); ("classification", VNull)].

Definition cold : World := mkWorld ∅ 1000 [].

Definition cachedCard : CacheCardState :=
  mkCacheCardState {[ "person" := VObj [("displayName", VStr "Uma")] ]} (Some 400).
Definition warm : World := mkWorld {[ "u1" := cachedCard ]} 1000 [].

(** The batch answers with a flag under [value]. *)
Definition flagResponses : list (string * BatchResponse) :=
  [("files", response (VObj [("value", VBool false)]))].

Definition flagged : Environment :=
  {| sections := allSections;
     cacheConfig := hourlyCache;
     executeAll_answer := fun _ => Some flagResponses;
     get_answer := fun _ => None;
     post_answer := fun _ _ => None;
     latency := fun _ => 5 |}.

(** The fetch for [u1] in [env], and where its gathering stage ends. *)
Definition fetch := getPersonCardGraphData userScopes insightScopes mailOf noCoercion.

Definition batch : IBatch :=
  enqueueRequests userScopes insightScopes env [] "u1" (Some "u1@x.com") false false.

Definition gathered : gmap string value :=
  <["directReports" := VArr [ann; bob; cho]]>
    (<["person" := VObj [("displayName", VStr "Uma")]]> ∅).

(** What the fetch returns for [u1] in [env]. *)
Definition returned : gmap string value :=
  <["directReports" := VArr [ann]]> gathered.

Definition afterGather : World :=
  mkWorld ∅ 1010 [CreateBatch; ExecuteAll batch; ApiGet (profileRequest "u1")].

(** Further worlds, entities and environments. *)
Definition unstamped : World :=
  mkWorld {[ "u1" := mkCacheCardState {[ "person" := VObj [("displayName", VStr "Uma")] ]} None ]}
    1000 [].

Definition broken : IDynamicPerson := mkPerson "u2" [("personType", VNull)].

Definition noSections : Sections :=
  {| organization := None; mailMessages := false; files := false; profile := false |}.

Definition bare : Environment :=
  {| sections := noSections;
     cacheConfig := hourlyCache;
     executeAll_answer := fun _ => Some [];
     get_answer := fun _ => None;
     post_answer := fun _ _ => None;
     latency := fun _ => 5 |}.

Definition umaProfile : value := VObj [("skills", VArr [VStr "sailing"])].

(** The batch throws, the profile endpoint answers. *)
Definition profileOnly : Environment :=
  {| sections := allSections;
     cacheConfig := hourlyCache;
     executeAll_answer := fun _ => None;
     get_answer := fun _ => Some umaProfile;
     post_answer := fun _ _ => None;
     latency := fun _ => 5 |}.

Definition forbidden : value := VObj [("error", VObj [("code", VStr "Forbidden")])].

(** The direct reports are refused with an error body. *)
Definition refusing : Environment :=
  {| sections := allSections;
     cacheConfig := hourlyCache;
     executeAll_answer := fun _ => Some [("directReports", response forbidden)];
     get_answer := fun _ => None;
     post_answer := fun _ _ => None;
     latency := fun _ => 5 |}.

(** The list of direct reports has a hole. *)
Definition holed : Environment :=
  {| sections := allSections;
     cacheConfig := hourlyCache;
     executeAll_answer :=
       fun _ => Some [("directReports", response (VObj [("value", VArr [ann; VNull])]))];
     get_answer := fun _ => None;
     post_answer := fun _ _ => None;
     latency := fun _ => 5 |}.



End Sample.

(** ** Properties *)

Section Properties.

Variable validUserByIdScopes : list string.
Variable validInsightScopes : list string.
Variable getEmailFromGraphEntity : IDynamicPerson -> option string.
Variable coerced_gt0 : value -> Outcome bool.

Abbreviation fetch :=
  (getPersonCardGraphData validUserByIdScopes validInsightScopes
     getEmailFromGraphEntity coerced_gt0).
Abbreviation gather := (gatherCardData validUserByIdScopes validInsightScopes).
Abbreviation enqueue := (enqueueRequests validUserByIdScopes validInsightScopes).
Abbreviation postFilter := (filterDirectReports coerced_gt0).

(** *** The stages, one by one *)

Lemma classified_isContactOrGroup personDetails :
  classifiedContactOrGroup personDetails ->
  isContactOrGroup personDetails = Resolved true.
Proof.
  unfold classifiedContactOrGroup, isContactOrGroup, has_key.
  intros [Hc | (pt & Hpt & Hd)].
  - destruct (own _ "classification"); [reflexivity | discriminate].
  - destruct (own _ "classification"); [reflexivity |].
    rewrite Hpt. simpl. destruct Hd as [Hs | Hg].
    + rewrite Hs. reflexivity.
    + destruct (get pt "subclass") as [sub | e] eqn:Hsub.
      * simpl. destruct (strict_eq_str sub _); [reflexivity |].
        rewrite Hg. reflexivity.
      * destruct pt; simpl in *; discriminate.
Qed.

(** A fresh entry is returned as it is and the world is left alone. *)
Lemma fetch_hit env personDetails isMe w cardState :
  cache w !! id personDetails = Some cardState ->
  isFresh env (clock w) cardState = true ->
  fetch env personDetails isMe w = (Resolved cardState, w).
Proof.
  intros Hc Hf. unfold getPersonCardGraphData, cache_getValue, Date_now.
  unfold mbind at 1 2. unfold Async_bind. rewrite Hc. simpl. rewrite Hf. reflexivity.
Qed.

(** The run after a miss: classification, gathering, post-filter, write. *)
Lemma fetch_miss env personDetails isMe w :
  staleOrAbsent env w (id personDetails) ->
  fetch env personDetails isMe w =
    match isContactOrGroup personDetails with
    | Rejected e => (Rejected e, w)
    | Resolved contactOrGroup =>
        match gather env (id personDetails) (getEmailFromGraphEntity personDetails)
                isMe contactOrGroup w with
        | (Rejected e, w1) => (Rejected e, w1)
        | (Resolved data, w1) =>
            match postFilter data with
            | Rejected e => (Rejected e, w1)
            | Resolved data' =>
                (Resolved (mkCacheCardState data' None),
                 mkWorld (<[id personDetails := mkCacheCardState data' (Some (clock w1))]>
                            (cache w1))
                         (clock w1) (calls w1))
            end
        end
    end.
Proof.
  intros Hm. unfold staleOrAbsent in Hm.
  unfold getPersonCardGraphData, cache_getValue, Date_now.
  unfold mbind at 1 2. unfold Async_bind.
  assert (Hnone : (cache w !! id personDetails) ≫=
            (fun c => if isFresh env (clock w) c then Some c else None) = None).
  { destruct (cache w !! id personDetails) as [c |]; simpl; [rewrite Hm |]; reflexivity. }
  rewrite Hnone. unfold lift, mbind, Async_bind.
  destruct (isContactOrGroup personDetails) as [b | e]; [| reflexivity].
  destruct (gatherCardData _ _ _ _ _ _ _ w) as [[data | e] w1]; [| reflexivity].
  destruct (filterDirectReports _ data); reflexivity.
Qed.

Lemma gather_run env userId email isMe b w :
  let batch := enqueue env [] userId email isMe b in
  let merged := mergeResponses (default [] (executeAll_answer env batch)) ∅ in
  let w1 := mkWorld (cache w) (clock w + latency env (ExecuteAll batch))
              (calls w ++ [CreateBatch; ExecuteAll batch]) in
  gather env userId email isMe b w =
    if negb b && profile (sections env) then
      (Resolved (match get_answer env (profileRequest userId) with
                 | Some fetched =>
                     if truthy fetched then <["profile" := fetched]> merged else merged
                 | None => merged
                 end),
       mkWorld (cache w) (clock w1 + latency env (ApiGet (profileRequest userId)))
         (calls w1 ++ [ApiGet (profileRequest userId)]))
    else (Resolved merged, w1).
Proof.
  intros batch merged w1. subst batch merged w1.
  unfold gatherCardData, graph_createBatch, batch_executeAll, getProfile, api_get,
    try_catch, remote, profileRequest.
  unfold mbind, mret, Async_bind, Async_ret. simpl.
  destruct (executeAll_answer env _) as [resp |]; simpl;
    destruct (negb b && profile (sections env)); simpl;
    try destruct (get_answer env _) as [fetched |]; simpl;
    rewrite <- ?app_assoc; reflexivity.
Qed.

Lemma gather_resolves env userId email isMe b w :
  ∃ data w1, gather env userId email isMe b w = (Resolved data, w1).
Proof.
  rewrite gather_run. cbv zeta. destruct (negb b && profile (sections env)); eauto.
Qed.

(** The loop over the response map. *)
Lemma merge_app resp1 resp2 data :
  mergeResponses (resp1 ++ resp2) data = mergeResponses resp2 (mergeResponses resp1 data).
Proof. unfold mergeResponses. apply foldl_app. Qed.



Lemma merge_lookup_Some resp (k : string) v :
  mergeResponses resp ∅ !! k = Some v -> ∃ r, (k, r) ∈ resp ∧ v = payload r.
Proof.
  induction resp as [| [k' r'] resp IH] using rev_ind; intros H.
  - unfold mergeResponses in H. simpl in H. rewrite lookup_empty in H. discriminate.
  - rewrite merge_app in H. simpl in H. destruct (decide (k' = k)) as [-> | Hne].
    + rewrite lookup_insert_eq in H. inversion H; subst.
      exists r'. split; [| reflexivity]. apply elem_of_app. right. apply list_elem_of_singleton.
      reflexivity.
    + rewrite lookup_insert_ne in H by assumption.
      destruct (IH H) as (r & Hin & Hv). exists r. split; [| assumption].
      apply elem_of_app. left. assumption.
Qed.

(** The post-filter. *)
Lemma get_not_nullish v k : nullish v = false -> get v k = Resolved (get_opt v k).
Proof. unfold get_opt. destruct v; simpl; intros H; try discriminate; reflexivity. Qed.

Lemma js_filter_enabled reports :
  forallb (fun r => negb (nullish r)) reports = true ->
  js_filter (fun report => accountEnabled ← get report "accountEnabled";
                           Resolved (truthy accountEnabled)) reports
  = Resolved (filter (fun r => enabled r) reports).
Proof.
  induction reports as [| r reports IH]; intros H; [reflexivity |].
  simpl in H. apply andb_true_iff in H as [Hr H].
  apply negb_true_iff in Hr. simpl. rewrite (get_not_nullish _ _ Hr).
  unfold mbind at 1. unfold Outcome_bind at 1.
  unfold mbind at 1. unfold Outcome_bind at 1.
  rewrite (IH H). rewrite filter_cons.
  change (truthy (get_opt r "accountEnabled")) with (enabled r).
  destruct (enabled r); simpl; reflexivity.
Qed.

Lemma postFilter_list (data : gmap string value) reports :
  data !! "directReports" = Some (VArr reports) ->
  isUserList (VArr reports) = true ->
  postFilter data = Resolved (<["directReports" := VArr (filter (fun r => enabled r) reports)]> data).
Proof.
  intros Hd Hl. unfold filterDirectReports. rewrite Hd. simpl.
  destruct reports as [| r reports].
  - simpl. rewrite insert_id by assumption. reflexivity.
  - unfold mbind at 1. unfold Outcome_bind at 1.
    replace (0 <? Z.of_nat (length (r :: reports))) with true
      by (symmetry; apply Z.ltb_lt; simpl; lia).
    unfold mbind at 1. unfold Outcome_bind at 1.
    pose proof (js_filter_enabled (r :: reports) Hl) as Hf.
    unfold mbind, Outcome_bind in Hf. rewrite Hf. reflexivity.
Qed.

Lemma postFilter_absent (data : gmap string value) :
  data !! "directReports" = None -> postFilter data = Resolved data.
Proof. intros Hd. unfold filterDirectReports. rewrite Hd. reflexivity. Qed.

Lemma postFilter_other_keys (data data' : gmap string value) (k : string) :
  postFilter data = Resolved data' -> k ≠ "directReports" -> data' !! k = data !! k.
Proof.
  unfold filterDirectReports. intros H Hk.
  destruct (truthy _); [| congruence].
  destruct (get _ "length") as [len | e]; simpl in H; [| discriminate].
  destruct (js_gt0 _ len) as [[|] | e]; simpl in H; try congruence.
  destruct (default VUndefined (data !! "directReports")); try discriminate.
  destruct (js_filter _ items) as [kept | e]; simpl in H; [| discriminate].
  inversion H; subst. apply lookup_insert_ne. congruence.
Qed.

(** The names that can be registered in a batch. *)
Lemma enqueue_ids env userId email isMe b r :
  r ∈ enqueue env [] userId email isMe b ->
  br_id r ∈ ["person"; "directReports"; "people"; "messages"; "files"].
Proof.
  unfold enqueueRequests, buildOrgStructureRequest, buildWorksWithRequest,
    buildMessagesWithUserRequest, buildFilesRequest, batch_get.
  destruct b, (organization (sections env)) as [[[|]] |], email as [address |],
    (mailMessages (sections env)), (files (sections env)), isMe; simpl;
    try destruct (negb (bool_decide (address = EmptyString))); simpl;
    intros Hr; repeat (apply elem_of_cons in Hr as [-> | Hr]); simpl;
    try (inversion Hr; fail); set_solver.
Qed.

Lemma enqueue_contact_or_group env userId email isMe :
  Forall (fun r => br_id r = "messages" ∨ br_id r = "files")
    (enqueue env [] userId email isMe true).
Proof.
  unfold enqueueRequests, buildMessagesWithUserRequest, buildFilesRequest, batch_get.
  destruct email as [address |], (mailMessages (sections env)), (files (sections env)), isMe;
    simpl; try destruct (negb (bool_decide (address = EmptyString))); simpl;
    repeat match goal with
           | |- Forall _ (_ :: _) => constructor; [simpl; auto |]
           | |- Forall _ [] => constructor
           end.
Qed.

(** *** The claims *)

(** C1.  When the cache holds an entry for the entity id whose age, the
    current time minus its cached timestamp, is less than the invalidation
    period, [getPersonCardGraphData] resolves with that entry unchanged and
    leaves the world as it was: no batch is created or executed, no profile
    is fetched, the log of calls does not grow. *)
Theorem fresh_cache_entry_is_returned env personDetails isMe w cardState t :
  cache w !! id personDetails = Some cardState ->
  timeCached cardState = Some t ->
  clock w - t < getCardStateInvalidationTime env ->
  fetch env personDetails isMe w = (Resolved cardState, w) ∧
  calls (snd (fetch env personDetails isMe w)) = calls w.
Proof.
  intros Hc Ht Hage.
  assert (Hrun : fetch env personDetails isMe w = (Resolved cardState, w)).
  { apply fetch_hit; [assumption |]. unfold isFresh. rewrite Ht. apply Z.ltb_lt. assumption. }
  rewrite Hrun. split; reflexivity.
Qed.

(** C2.  When the cache has no fresh entry and the execution of the batch
    throws, [getPersonCardGraphData] still resolves, and the record it
    returns holds nothing that a batch response would have supplied: every
    key other than [profile] is absent. *)
Theorem batch_failure_is_swallowed env personDetails isMe w contactOrGroup :
  staleOrAbsent env w (id personDetails) ->
  isContactOrGroup personDetails = Resolved contactOrGroup ->
  executeAll_answer env
    (enqueue env [] (id personDetails) (getEmailFromGraphEntity personDetails)
       isMe contactOrGroup) = None ->
  ∃ data w',
    fetch env personDetails isMe w = (Resolved (mkCacheCardState data None), w') ∧
    ∀ k : string, k ≠ "profile" -> data !! k = None.
Proof.
  intros Hm Hcg Hthrow. rewrite (fetch_miss _ _ _ _ Hm), Hcg, gather_run. cbv zeta.
  rewrite Hthrow. simpl default.
  change (mergeResponses [] ∅) with (∅ : gmap string value).
  assert (Hdone : ∀ (data : gmap string value) w1,
    (∀ k : string, k ≠ "profile" -> data !! k = None) ->
    ∃ data' w',
      match postFilter data with
      | Rejected e => (Rejected e, w1)
      | Resolved data' =>
          (Resolved (mkCacheCardState data' None),
           mkWorld (<[id personDetails := mkCacheCardState data' (Some (clock w1))]> (cache w1))
             (clock w1) (calls w1))
      end = (Resolved (mkCacheCardState data' None), w') ∧
      ∀ k : string, k ≠ "profile" -> data' !! k = None).
  { intros data w1 Hdata. rewrite postFilter_absent by (apply Hdata; discriminate). eauto. }
  destruct (negb contactOrGroup && profile (sections env)).
  - apply Hdone. intros k Hk.
    destruct (get_answer env _) as [fetched |]; [destruct (truthy fetched) |];
      rewrite ?lookup_insert_ne by congruence; apply lookup_empty.
  - apply Hdone. intros k _. apply lookup_empty.
Qed.

(** C4.  For an entity classified as a contact or a group, whatever the
    section configuration, a fetch that misses the cache creates one batch
    and executes it, and these are its only calls: the batch holds neither
    entry of the org-structure request ([person], [directReports]), and no
    call to the profile endpoint is made. *)
Theorem contact_or_group_skips_org_structure_and_profile env personDetails isMe w :
  staleOrAbsent env w (id personDetails) ->
  classifiedContactOrGroup personDetails ->
  ∃ batch,
    calls (snd (fetch env personDetails isMe w)) =
      (calls w ++ [CreateBatch; ExecuteAll batch])%list ∧
    Forall (fun r => br_id r ≠ "person" ∧ br_id r ≠ "directReports") batch ∧
    ∀ req, ApiGet req ∈ calls (snd (fetch env personDetails isMe w)) -> ApiGet req ∈ calls w.
Proof.
  intros Hm Hcls. apply classified_isContactOrGroup in Hcls.
  exists (enqueue env [] (id personDetails) (getEmailFromGraphEntity personDetails) isMe true).
  assert (Hcalls : calls (snd (fetch env personDetails isMe w)) =
    (calls w ++ [CreateBatch;
                 ExecuteAll (enqueue env [] (id personDetails)
                               (getEmailFromGraphEntity personDetails) isMe true)])%list).
  { rewrite (fetch_miss _ _ _ _ Hm), Hcls, gather_run. cbv zeta. cbn [negb andb].
    destruct (postFilter _); reflexivity. }
  rewrite Hcalls. split; [reflexivity |]. split.
  - eapply Forall_impl; [apply enqueue_contact_or_group |].
    intros r [-> | ->]; split; discriminate.
  - intros req Hin. apply elem_of_app in Hin as [Hin | Hin]; [assumption |].
    repeat (apply elem_of_cons in Hin as [Heq | Hin]; [discriminate |]). inversion Hin.
Qed.

(** C8.  For every [person] and [user], [createChat] posts to [/chats],
    with the no-store header and the chat-create scopes, a payload whose
    [chatType] is oneOnOne and whose [members] are exactly two descriptors:
    the first bound to [users('<user>')], the second to [users('<person>')],
    each with the aadUserConversationMember type tag and the single role
    owner. *)
Theorem createChat_posts_two_owners env person user w :
  ∃ first second,
    calls (snd (createChat env person user w)) =
      (calls w ++ [ApiPost (mkGraphRequest "/chats" None [("Cache-Control", "no-store")]
                              validCreateChatScopes)
                     (VObj [("chatType", VStr "oneOnOne");
                            ("members", VArr [first; second])])])%list ∧
    get first "user@odata.bind" =
      Resolved (VStr ("https://graph.microsoft.com/v1.0/users('" +:+ user +:+ "')")) ∧
    get second "user@odata.bind" =
      Resolved (VStr ("https://graph.microsoft.com/v1.0/users('" +:+ person +:+ "')")) ∧
    Forall (fun member =>
              get member "@odata.type" =
                Resolved (VStr "#microsoft.graph.aadUserConversationMember") ∧
              get member "roles" = Resolved (VArr [VStr "owner"]))
      [first; second].
Proof.
  unfold createChat, api_post, remote. do 2 eexists.
  split; [destruct (post_answer env _ _); reflexivity |].
  split; [reflexivity |]. split; [reflexivity |].
  repeat constructor.
Qed.

(** After a miss on well-typed direct reports: the run resolves with the
    gathered record, its direct reports filtered, and writes it. *)
Lemma fetch_filters_reports env personDetails isMe w contactOrGroup
    (gathered : gmap string value) w1 reports :
  staleOrAbsent env w (id personDetails) ->
  isContactOrGroup personDetails = Resolved contactOrGroup ->
  gather env (id personDetails) (getEmailFromGraphEntity personDetails)
    isMe contactOrGroup w = (Resolved gathered, w1) ->
  gathered !! "directReports" = Some (VArr reports) ->
  isUserList (VArr reports) = true ->
  ∃ w',
    fetch env personDetails isMe w =
      (Resolved (mkCacheCardState
                   (<["directReports" := VArr (filter (fun r => enabled r) reports)]> gathered)
                   None), w').
Proof.
  intros Hm Hcg Hg Hd Hl.
  rewrite (fetch_miss _ _ _ _ Hm), Hcg, Hg, (postFilter_list _ _ Hd Hl). eauto.
Qed.

(** A filter that ran to its end read [accountEnabled] from every entry. *)
Lemma js_filter_resolved reports kept :
  js_filter (fun report => accountEnabled ← get report "accountEnabled";
                           Resolved (truthy accountEnabled)) reports = Resolved kept ->
  forallb (fun r => negb (nullish r)) reports = true.
Proof.
  revert kept. induction reports as [| r reports IH]; intros kept H; [reflexivity |].
  simpl in H. unfold mbind, Outcome_bind in H. simpl.
  destruct (get r "accountEnabled") as [v | e] eqn:Hget; [| discriminate].
  destruct (js_filter _ reports) as [kept' | e] eqn:Hrest; [| discriminate].
  rewrite (IH kept' eq_refl).
  destruct r; simpl in *; try discriminate; reflexivity.
Qed.

(** A fetch that resolved on a fetched list found it well typed. *)
Lemma fetch_resolved_reports env personDetails isMe w contactOrGroup
    (gathered : gmap string value) w1 reports card w' :
  staleOrAbsent env w (id personDetails) ->
  isContactOrGroup personDetails = Resolved contactOrGroup ->
  gather env (id personDetails) (getEmailFromGraphEntity personDetails)
    isMe contactOrGroup w = (Resolved gathered, w1) ->
  gathered !! "directReports" = Some (VArr reports) ->
  fetch env personDetails isMe w = (Resolved card, w') ->
  isUserList (VArr reports) = true.
Proof.
  intros Hm Hcg Hg Hd Hrun. rewrite (fetch_miss _ _ _ _ Hm), Hcg, Hg in Hrun.
  destruct (postFilter gathered) as [data' | e] eqn:Hpf; [| discriminate].
  clear Hrun. unfold filterDirectReports in Hpf. rewrite Hd in Hpf. simpl in Hpf.
  destruct reports as [| r reports]; [reflexivity |].
  unfold mbind at 1 in Hpf. unfold Outcome_bind at 1 in Hpf.
  replace (0 <? Z.of_nat (length (r :: reports))) with true in Hpf
    by (symmetry; apply Z.ltb_lt; simpl; lia).
  unfold mbind at 1 in Hpf. unfold Outcome_bind at 1 in Hpf.
  destruct (js_filter _ (r :: reports)) as [kept | e] eqn:Hf; [| discriminate].
  apply (js_filter_resolved _ kept). unfold mbind, Outcome_bind. exact Hf.
Qed.

(** C3.  Whenever the gathered record carries a fetched list of direct
    reports, whatever mix of enabled and disabled entries it holds, every
    state the fetch returns has a [directReports] list made of entries of
    the fetched list, none of them with [accountEnabled] equal to [false],
    and every other field of that state is the gathered one, untouched by
    the post-filter.  The fetch does return a state as soon as the fetched
    list is an array of readable entries. *)
Theorem returned_directReports_exclude_disabled env personDetails isMe w contactOrGroup
    (gathered : gmap string value) w1 reports :
  staleOrAbsent env w (id personDetails) ->
  isContactOrGroup personDetails = Resolved contactOrGroup ->
  gather env (id personDetails) (getEmailFromGraphEntity personDetails)
    isMe contactOrGroup w = (Resolved gathered, w1) ->
  gathered !! "directReports" = Some (VArr reports) ->
  (∀ card w',
     fetch env personDetails isMe w = (Resolved card, w') ->
     ∃ kept,
       state card !! "directReports" = Some (VArr kept) ∧
       (∀ r, r ∈ kept -> r ∈ reports ∧ get r "accountEnabled" ≠ Resolved (VBool false)) ∧
       (∀ k : string, k ≠ "directReports" -> state card !! k = gathered !! k)) ∧
  (isUserList (VArr reports) = true ->
   ∃ card w', fetch env personDetails isMe w = (Resolved card, w')).
Proof.
  intros Hm Hcg Hg Hd. split.
  - intros card w' Hrun.
    pose proof (fetch_resolved_reports _ _ _ _ _ _ _ _ _ _ Hm Hcg Hg Hd Hrun) as Hl.
    destruct (fetch_filters_reports _ _ _ _ _ _ _ _ Hm Hcg Hg Hd Hl) as [w'' Hrun'].
    rewrite Hrun in Hrun'. inversion Hrun'; subst. simpl.
    eexists. split; [apply lookup_insert_eq |]. split.
    + intros r Hr. apply list_elem_of_filter in Hr as [He Hr]. split; [assumption |].
      intros Hget. unfold enabled, get_opt in He. rewrite Hget in He. exact He.
    + intros k Hk. apply lookup_insert_ne. congruence.
  - intros Hl.
    destruct (fetch_filters_reports _ _ _ _ _ _ _ _ Hm Hcg Hg Hd Hl) as [w' Hrun].
    eauto.
Qed.

(** C10.  On a fetched list of direct reports the post-filter keeps exactly
    the reports whose [accountEnabled] is truthy: in every state the fetch
    returns, a report whose [accountEnabled] is missing, [undefined] or
    [null] is absent from the list just like one whose [accountEnabled] is
    [false], and every report with a truthy [accountEnabled] is present.
    The fetch does return a state as soon as the fetched list is an array
    of readable entries. *)
Theorem falsy_accountEnabled_is_dropped env personDetails isMe w contactOrGroup
    (gathered : gmap string value) w1 reports :
  staleOrAbsent env w (id personDetails) ->
  isContactOrGroup personDetails = Resolved contactOrGroup ->
  gather env (id personDetails) (getEmailFromGraphEntity personDetails)
    isMe contactOrGroup w = (Resolved gathered, w1) ->
  gathered !! "directReports" = Some (VArr reports) ->
  (∀ card w',
     fetch env personDetails isMe w = (Resolved card, w') ->
     ∃ kept,
       state card !! "directReports" = Some (VArr kept) ∧
       kept = filter (fun r => truthy (get_opt r "accountEnabled")) reports ∧
       (∀ r, truthy (get_opt r "accountEnabled") = false -> r ∉ kept) ∧
       (∀ fields,
          own fields "accountEnabled" = None ∨
          own fields "accountEnabled" = Some VUndefined ∨
          own fields "accountEnabled" = Some VNull ∨
          own fields "accountEnabled" = Some (VBool false) ->
          VObj fields ∉ kept) ∧
       (∀ r, r ∈ reports -> truthy (get_opt r "accountEnabled") = true -> r ∈ kept)) ∧
  (isUserList (VArr reports) = true ->
   ∃ card w', fetch env personDetails isMe w = (Resolved card, w')).
Proof.
  intros Hm Hcg Hg Hd.
  assert (Hdrop : ∀ r, truthy (get_opt r "accountEnabled") = false ->
                       r ∉ filter (fun r => enabled r) reports).
  { intros r Hf Hr. apply list_elem_of_filter in Hr as [He _].
    unfold enabled in He. rewrite Hf in He. exact He. }
  split.
  - intros card w' Hrun.
    pose proof (fetch_resolved_reports _ _ _ _ _ _ _ _ _ _ Hm Hcg Hg Hd Hrun) as Hl.
    destruct (fetch_filters_reports _ _ _ _ _ _ _ _ Hm Hcg Hg Hd Hl) as [w'' Hrun'].
    rewrite Hrun in Hrun'. inversion Hrun'; subst. simpl.
    eexists. split; [apply lookup_insert_eq |].
    split; [reflexivity |]. split; [exact Hdrop |]. split.
    + intros fields Hown. apply Hdrop. unfold get_opt. simpl.
      destruct Hown as [-> | [-> | [-> | ->]]]; reflexivity.
    + intros r Hr Ht. apply list_elem_of_filter. split; [| assumption].
      unfold enabled. rewrite Ht. exact I.
  - intros Hl.
    destruct (fetch_filters_reports _ _ _ _ _ _ _ _ Hm Hcg Hg Hd Hl) as [w' Hrun].
    eauto.
Qed.

(** C9.  After a miss the record is written to the cache before the fetch
    returns, on every path that returns: the cache then maps the entity id
    to the returned record stamped with the time of the write, and a later
    fetch for the same entity, as long as that entry is younger than the
    invalidation period, returns it without touching the world.  This
    includes the path on which the batch threw and the profile fetch failed
    or was skipped: the fetch resolves with the empty record, which is what
    gets cached and served. *)
Theorem cache_write_is_unconditional env personDetails isMe w :
  staleOrAbsent env w (id personDetails) ->
  (∀ card w',
     fetch env personDetails isMe w = (Resolved card, w') ->
     cache w' =
       <[id personDetails := mkCacheCardState (state card) (Some (clock w'))]> (cache w) ∧
     ∀ w2 isMe2,
       cache w2 !! id personDetails = cache w' !! id personDetails ->
       clock w2 - clock w' < getCardStateInvalidationTime env ->
       fetch env personDetails isMe2 w2 =
         (Resolved (mkCacheCardState (state card) (Some (clock w'))), w2)) ∧
  (∀ contactOrGroup,
     isContactOrGroup personDetails = Resolved contactOrGroup ->
     executeAll_answer env
       (enqueue env [] (id personDetails) (getEmailFromGraphEntity personDetails)
          isMe contactOrGroup) = None ->
     negb contactOrGroup && profile (sections env) = false ∨
     get_answer env (profileRequest (id personDetails)) = None ->
     ∃ w', fetch env personDetails isMe w = (Resolved (mkCacheCardState ∅ None), w')).
Proof.
  intros Hm. split.
  - intros card w' Hrun.
    assert (Hw : cache w' =
      <[id personDetails := mkCacheCardState (state card) (Some (clock w'))]> (cache w)).
    { rewrite (fetch_miss _ _ _ _ Hm) in Hrun.
      destruct (isContactOrGroup personDetails) as [b | e]; [| discriminate].
      rewrite gather_run in Hrun. cbv zeta in Hrun.
      destruct (negb b && profile (sections env));
        destruct (postFilter _) as [data' | e]; try discriminate;
        inversion Hrun; subst; reflexivity. }
    split; [exact Hw |]. intros w2 isMe2 Hsame Hage.
    apply fetch_hit.
    + rewrite Hsame, Hw. apply lookup_insert_eq.
    + unfold isFresh. simpl. apply Z.ltb_lt. exact Hage.
  - intros b Hcg Hthrow Hprofile.
    rewrite (fetch_miss _ _ _ _ Hm), Hcg, gather_run. cbv zeta.
    rewrite Hthrow. simpl default.
    change (mergeResponses [] ∅) with (∅ : gmap string value).
    destruct (negb b && profile (sections env)).
    + destruct Hprofile as [? | ->]; [discriminate |].
      rewrite postFilter_absent by apply lookup_empty. eauto.
    + rewrite postFilter_absent by apply lookup_empty. eauto.
Qed.






(** C6, as amended.  Provided the two imported scope lists are not empty,
    every entry registered by the request builders except the
    [directReports] entry, that is the [person] entry of the org-structure
    request and the works-with, mail-search and files entries, carries a
    fixed and non-empty list of scopes, the same for every user id and
    address; the [directReports] entry is registered without scopes. *)
Theorem builders_register_fixed_scopes :
  validUserByIdScopes ≠ [] ->
  validInsightScopes ≠ [] ->
  ∀ batch userId emailAddress email,
    (∃ resource headers resource',
       buildOrgStructureRequest validUserByIdScopes batch userId =
         (batch ++ [mkBatchRequest "person" resource (Some validUserByIdScopes) headers;
                    mkBatchRequest "directReports" resource' None None])%list) ∧
    (∃ resource,
       buildWorksWithRequest batch userId =
         (batch ++ [mkBatchRequest "people" resource (Some validPeopleScopes) None])%list) ∧
    (∃ resource,
       buildMessagesWithUserRequest batch emailAddress =
         (batch ++ [mkBatchRequest "messages" resource
                      (Some validMailSearchScopes) None])%list) ∧
    (∃ resource,
       buildFilesRequest validInsightScopes batch email =
         (batch ++ [mkBatchRequest "files" resource (Some validInsightScopes) None])%list) ∧
    Forall (fun scopes : list string => scopes ≠ [])
      [validUserByIdScopes; validPeopleScopes; validMailSearchScopes; validInsightScopes].
Proof.
  intros Huser Hinsight batch userId emailAddress email.
  unfold buildOrgStructureRequest, buildWorksWithRequest, buildMessagesWithUserRequest,
    buildFilesRequest, batch_get.
  split; [do 3 eexists; rewrite <- app_assoc; reflexivity |].
  split; [eexists; reflexivity |]. split; [eexists; reflexivity |].
  split; [eexists; reflexivity |].
  repeat constructor; try assumption; discriminate.
Qed.


End Properties.


(** ** The claims on the sample data *)

(** The entry cached for [u1] at 400 is served at 1000. *)
Lemma fresh_cache_entry_is_returned_witness :
  cache Sample.warm !! "u1" = Some Sample.cachedCard ∧
  clock Sample.warm - 400 < getCardStateInvalidationTime Sample.env ∧
  Sample.fetch Sample.env Sample.u1 false Sample.warm
    = (Resolved Sample.cachedCard, Sample.warm).
Proof.
  assert (H1 : cache Sample.warm !! id Sample.u1 = Some Sample.cachedCard)
    by (vm_compute; reflexivity).
  assert (H2 : timeCached Sample.cachedCard = Some 400) by reflexivity.
  assert (H3 : clock Sample.warm - 400 < getCardStateInvalidationTime Sample.env)
    by (vm_compute; reflexivity).
  split; [exact H1 |]. split; [exact H3 |].
  exact (proj1 (fresh_cache_entry_is_returned Sample.userScopes Sample.insightScopes
                  Sample.mailOf Sample.noCoercion Sample.env Sample.u1 false Sample.warm
                  Sample.cachedCard 400 H1 H2 H3)).
Defined.

(** Offline, the fetch for [u1] resolves with a record that has at most a
    profile. *)
Lemma batch_failure_is_swallowed_witness :
  staleOrAbsent Sample.offline Sample.cold "u1" ∧
  ∃ data w',
    Sample.fetch Sample.offline Sample.u1 false Sample.cold
      = (Resolved (mkCacheCardState data None), w') ∧
    ∀ k : string, k ≠ "profile" -> data !! k = None.
Proof.
  assert (H1 : staleOrAbsent Sample.offline Sample.cold (id Sample.u1))
    by (vm_compute; exact I).
  split; [exact H1 |].
  exact (batch_failure_is_swallowed Sample.userScopes Sample.insightScopes
           Sample.mailOf Sample.noCoercion Sample.offline Sample.u1 false Sample.cold
           false H1 eq_refl eq_refl).
Defined.

(** The group [team] carries a classification. *)
Lemma contact_or_group_skips_org_structure_and_profile_witness :
  classifiedContactOrGroup Sample.team ∧
  ∃ batch,
    calls (snd (Sample.fetch Sample.env Sample.team false Sample.cold)) =
      [CreateBatch; ExecuteAll batch] ∧
    Forall (fun r => br_id r ≠ "person" ∧ br_id r ≠ "directReports") batch.
Proof.
  assert (H1 : staleOrAbsent Sample.env Sample.cold (id Sample.team))
    by (vm_compute; exact I).
  assert (H2 : classifiedContactOrGroup Sample.team) by (left; reflexivity).
  split; [exact H2 |].
  destruct (contact_or_group_skips_org_structure_and_profile Sample.userScopes
              Sample.insightScopes Sample.mailOf Sample.noCoercion Sample.env Sample.team
              false Sample.cold H1 H2) as (batch & Hcalls & Hbatch & _).
  exists batch. split; [exact Hcalls | exact Hbatch].
Defined.

(** Of the three reports fetched for [u1], one enabled, one disabled and
    one without the flag, the disabled one is not returned. *)
Lemma returned_directReports_exclude_disabled_witness :
  Sample.gathered !! "directReports" = Some (VArr [Sample.ann; Sample.bob; Sample.cho]) ∧
  ∃ card w' kept,
    Sample.fetch Sample.env Sample.u1 false Sample.cold = (Resolved card, w') ∧
    state card !! "directReports" = Some (VArr kept) ∧
    Sample.bob ∉ kept.
Proof.
  assert (H1 : staleOrAbsent Sample.env Sample.cold (id Sample.u1))
    by (vm_compute; exact I).
  assert (H3 : gatherCardData Sample.userScopes Sample.insightScopes Sample.env
                 (id Sample.u1) (Sample.mailOf Sample.u1) false false Sample.cold
               = (Resolved Sample.gathered, Sample.afterGather))
    by (vm_compute; reflexivity).
  assert (H4 : Sample.gathered !! "directReports"
               = Some (VArr [Sample.ann; Sample.bob; Sample.cho]))
    by (vm_compute; reflexivity).
  split; [exact H4 |].
  destruct (returned_directReports_exclude_disabled Sample.userScopes Sample.insightScopes
              Sample.mailOf Sample.noCoercion Sample.env Sample.u1 false Sample.cold false
              Sample.gathered Sample.afterGather [Sample.ann; Sample.bob; Sample.cho]
              H1 eq_refl H3 H4) as [Hall Hsome].
  destruct (Hsome eq_refl) as (card & w' & Hrun).
  destruct (Hall card w' Hrun) as (kept & Hkept & Hnone & _).
  exists card, w', kept. split; [exact Hrun |]. split; [exact Hkept |].
  intros Hbob. apply (proj2 (Hnone _ Hbob)). reflexivity.
Defined.

(** Of the same three reports, only the enabled one is returned. *)
Lemma falsy_accountEnabled_is_dropped_witness :
  Sample.gathered !! "directReports" = Some (VArr [Sample.ann; Sample.bob; Sample.cho]) ∧
  ∃ card w',
    Sample.fetch Sample.env Sample.u1 false Sample.cold = (Resolved card, w') ∧
    state card !! "directReports" = Some (VArr [Sample.ann]).
Proof.
  assert (H1 : staleOrAbsent Sample.env Sample.cold (id Sample.u1))
    by (vm_compute; exact I).
  assert (H3 : gatherCardData Sample.userScopes Sample.insightScopes Sample.env
                 (id Sample.u1) (Sample.mailOf Sample.u1) false false Sample.cold
               = (Resolved Sample.gathered, Sample.afterGather))
    by (vm_compute; reflexivity).
  assert (H4 : Sample.gathered !! "directReports"
               = Some (VArr [Sample.ann; Sample.bob; Sample.cho]))
    by (vm_compute; reflexivity).
  split; [exact H4 |].
  destruct (falsy_accountEnabled_is_dropped Sample.userScopes Sample.insightScopes
              Sample.mailOf Sample.noCoercion Sample.env Sample.u1 false Sample.cold false
              Sample.gathered Sample.afterGather [Sample.ann; Sample.bob; Sample.cho]
              H1 eq_refl H3 H4) as [Hall Hsome].
  destruct (Hsome eq_refl) as (card & w' & Hrun).
  destruct (Hall card w' Hrun) as (kept & Hkept & Heq & _).
  exists card, w'. split; [exact Hrun |]. rewrite Hkept, Heq. reflexivity.
Defined.

(** Offline, the empty record is cached for [u1] and served afterwards. *)
Lemma cache_write_is_unconditional_witness :
  staleOrAbsent Sample.offline Sample.cold "u1" ∧
  ∃ w',
    Sample.fetch Sample.offline Sample.u1 false Sample.cold
      = (Resolved (mkCacheCardState ∅ None), w') ∧
    cache w' = <["u1" := mkCacheCardState ∅ (Some (clock w'))]> (cache Sample.cold) ∧
    Sample.fetch Sample.offline Sample.u1 false w'
      = (Resolved (mkCacheCardState ∅ (Some (clock w'))), w').
Proof.
  assert (H1 : staleOrAbsent Sample.offline Sample.cold (id Sample.u1))
    by (vm_compute; exact I).
  split; [exact H1 |].
  destruct (cache_write_is_unconditional Sample.userScopes Sample.insightScopes
              Sample.mailOf Sample.noCoercion Sample.offline Sample.u1 false Sample.cold H1)
    as [Hall Hfail].
  destruct (Hfail false eq_refl eq_refl (or_intror eq_refl)) as [w' Hrun].
  destruct (Hall _ w' Hrun) as [Hcache Hnext].
  exists w'. split; [exact Hrun |]. split; [exact Hcache |].
  apply Hnext; [reflexivity |].
  replace (clock w' - clock w') with 0 by lia. vm_compute. reflexivity.
Defined.

(** Membership in a literal list, by evaluation. *)
Ltac by_evaluation := apply (bool_decide_unpack _); vm_compute; exact I.



(** The builders on the sample scope lists. *)
Lemma builders_register_fixed_scopes_witness :
  Sample.userScopes ≠ [] ∧ Sample.insightScopes ≠ [] ∧
  Forall (fun scopes : list string => scopes ≠ [])
    [Sample.userScopes; validPeopleScopes; validMailSearchScopes; Sample.insightScopes].
Proof.
  assert (H1 : Sample.userScopes ≠ []) by discriminate.
  assert (H2 : Sample.insightScopes ≠ []) by discriminate.
  split; [exact H1 |]. split; [exact H2 |].
  exact (proj2 (proj2 (proj2 (proj2
    (builders_register_fixed_scopes Sample.userScopes Sample.insightScopes H1 H2
       [] "u1" "u1@x.com" (Some "u1@x.com")))))).
Defined.

(** C6, the claim as stated fails: the second entry of the org-structure
    request is registered without any scopes. *)
Lemma directReports_entry_has_no_scopes :
  ∃ r,
    r ∈ buildOrgStructureRequest Sample.userScopes [] "u1" ∧
    br_id r = "directReports" ∧
    br_scopes r = None ∧
    ¬ ∃ scopes, br_scopes r = Some scopes ∧ scopes ≠ [].
Proof.
  exists (mkBatchRequest "directReports"
            ("users/" +:+ "u1" +:+ "/directReports?$select=" +:+ userProperties) None None).
  split; [apply elem_of_cons; right; apply elem_of_cons; left; reflexivity |].
  split; [reflexivity |]. split; [reflexivity |].
  intros (scopes & Hs & _). discriminate Hs.
Qed.



(** The scenario of the specification: for [u1] with all sections enabled
    and an empty cache, the batch holds the two entries of the org
    structure, works-with, the mail search and the files shared by the
    address, and the result is cached under the id. *)
Example scenario_all_sections :
  Sample.batch =
    [mkBatchRequest "person"
       ("users/u1?$expand=manager($levels=max;$select=" +:+ userProperties
          +:+ ")&$select=" +:+ userProperties +:+ "&$count=true")
       (Some Sample.userScopes) (Some [("ConsistencyLevel", "eventual")]);
     mkBatchRequest "directReports"
       ("users/u1/directReports?$select=" +:+ userProperties) None None;
     mkBatchRequest "people" "users/u1/people?$filter=personType/class eq 'Person'"
       (Some ["People.Read.All"]) None;
     mkBatchRequest "messages" ("me/messages?$search=" +:+ dquote +:+ "from:u1@x.com" +:+ dquote)
       (Some ["Mail.ReadBasic"; "Mail.Read"; "Mail.ReadWrite"]) None;
     mkBatchRequest "files"
       "me/insights/shared?$filter=lastshared/sharedby/address eq 'u1@x.com'"
       (Some Sample.insightScopes) None] ∧
  cache (snd (Sample.fetch Sample.env Sample.u1 false Sample.cold)) !! "u1"
    = Some (mkCacheCardState Sample.returned (Some 1010)).
Proof. split; vm_compute; reflexivity. Qed.

(** An entity whose [personType] is present and [null] makes the
    classification raise before any call is made. *)
Example null_personType_rejects :
  Sample.fetch Sample.env (mkPerson "u2" [("personType", VNull)]) false Sample.cold
    = (Rejected TypeError, Sample.cold).
Proof. vm_compute. reflexivity. Qed.

(** ** Further properties of the module *)

Section Further.

Variable validUserByIdScopes : list string.
Variable validInsightScopes : list string.
Variable getEmailFromGraphEntity : IDynamicPerson -> option string.
Variable coerced_gt0 : value -> Outcome bool.

Abbreviation fetch :=
  (getPersonCardGraphData validUserByIdScopes validInsightScopes
     getEmailFromGraphEntity coerced_gt0).
Abbreviation gather := (gatherCardData validUserByIdScopes validInsightScopes).
Abbreviation enqueue := (enqueueRequests validUserByIdScopes validInsightScopes).
Abbreviation postFilter := (filterDirectReports coerced_gt0).

(** Every fetch either finds a fresh entry or misses. *)
Lemma hit_or_miss env w (key : string) :
  (∃ cardState, cache w !! key = Some cardState ∧ isFresh env (clock w) cardState = true) ∨
  staleOrAbsent env w key.
Proof.
  unfold staleOrAbsent. destruct (cache w !! key) as [c |]; [| right; exact I].
  destruct (isFresh env (clock w) c) eqn:Hf; [left; eauto | right; reflexivity].
Qed.

(** A miss that passes the classification logs the batch first. *)
Lemma miss_calls env personDetails isMe w b :
  staleOrAbsent env w (id personDetails) ->
  isContactOrGroup personDetails = Resolved b ->
  calls (snd (fetch env personDetails isMe w)) =
    (calls w ++
       [CreateBatch;
        ExecuteAll (enqueue env [] (id personDetails)
                      (getEmailFromGraphEntity personDetails) isMe b)] ++
       (if negb b && profile (sections env)
        then [ApiGet (profileRequest (id personDetails))] else []))%list.
Proof.
  intros Hm Hcg. rewrite (fetch_miss _ _ _ _ _ _ _ _ Hm), Hcg, gather_run. cbv zeta.
  destruct (negb b && profile (sections env)); destruct (filterDirectReports _ _);
    simpl; rewrite <- ?app_assoc; reflexivity.
Qed.

(** What a miss does to the cache: nothing when it rejects, one write under
    the entity id when it resolves. *)
Lemma miss_cache env personDetails isMe w :
  staleOrAbsent env w (id personDetails) ->
  match fst (fetch env personDetails isMe w) with
  | Rejected _ => cache (snd (fetch env personDetails isMe w)) = cache w
  | Resolved card =>
      ∃ t, cache (snd (fetch env personDetails isMe w)) =
             <[id personDetails := mkCacheCardState (state card) (Some t)]> (cache w)
  end.
Proof.
  intros Hm. rewrite (fetch_miss _ _ _ _ _ _ _ _ Hm).
  destruct (isContactOrGroup personDetails) as [b | e]; [| reflexivity].
  rewrite gather_run. cbv zeta.
  destruct (negb b && profile (sections env)); destruct (filterDirectReports _ _);
    simpl; eauto.
Qed.

(** X1.  A cached entry with a timestamp is served, with the world left
    alone, exactly when its age is below the period in force: the users
    period when one is set and is not zero, and the default period when the
    users period is unset or zero.  The comparison is strict, an entry as
    old as the period is not served. *)
Theorem entry_served_iff_younger_than_period env personDetails isMe w cardState t :
  cache w !! id personDetails = Some cardState ->
  timeCached cardState = Some t ->
  (users_invalidationPeriod (cacheConfig env) = None ∨
   users_invalidationPeriod (cacheConfig env) = Some 0 ->
   (fetch env personDetails isMe w = (Resolved cardState, w) ↔
    clock w - t < defaultInvalidationPeriod (cacheConfig env))) ∧
  (∀ period,
     users_invalidationPeriod (cacheConfig env) = Some period -> period ≠ 0 ->
     (fetch env personDetails isMe w = (Resolved cardState, w) ↔ clock w - t < period)).
Proof.
  intros Hc Ht.
  assert (Hiff : fetch env personDetails isMe w = (Resolved cardState, w) ↔
                 clock w - t < getCardStateInvalidationTime env).
  { split.
    - intros Hrun.
      destruct (Z.lt_ge_cases (clock w - t) (getCardStateInvalidationTime env))
        as [Hlt | Hge]; [assumption | exfalso].
      assert (Hm : staleOrAbsent env w (id personDetails)).
      { unfold staleOrAbsent, isFresh. rewrite Hc, Ht. apply Z.ltb_ge. assumption. }
      destruct (isContactOrGroup personDetails) as [b | e] eqn:Hcg.
      + pose proof (miss_calls _ _ isMe _ _ Hm Hcg) as Hcalls.
        rewrite Hrun in Hcalls. simpl in Hcalls.
        apply (f_equal length) in Hcalls. rewrite length_app in Hcalls.
        simpl in Hcalls. lia.
      + rewrite (fetch_miss _ _ _ _ _ _ _ _ Hm), Hcg in Hrun. discriminate.
    - intros Hlt. apply fetch_hit; [assumption |].
      unfold isFresh. rewrite Ht. apply Z.ltb_lt. assumption. }
  unfold getCardStateInvalidationTime in Hiff. split.
  - intros [Hu | Hu]; rewrite Hu in Hiff; exact Hiff.
  - intros period Hu Hne. rewrite Hu in Hiff.
    destruct (Z.eqb_spec period 0); [contradiction | exact Hiff].
Qed.

(** X2.  A cached entry that carries no timestamp is never served: the
    fetch treats it as absent and goes to the batch endpoint, whatever the
    periods are. *)
Theorem unstamped_entry_is_refetched env personDetails isMe w cardState b :
  cache w !! id personDetails = Some cardState ->
  timeCached cardState = None ->
  isContactOrGroup personDetails = Resolved b ->
  ∃ batch rest,
    calls (snd (fetch env personDetails isMe w)) =
      (calls w ++ CreateBatch :: ExecuteAll batch :: rest)%list.
Proof.
  intros Hc Ht Hcg.
  assert (Hm : staleOrAbsent env w (id personDetails)).
  { unfold staleOrAbsent, isFresh. rewrite Hc, Ht. reflexivity. }
  rewrite (miss_calls _ _ _ _ _ Hm Hcg). eauto.
Qed.

(** X3.  A fetch writes the cache under the id of its entity only: the
    entry of every other key is after the fetch what it was before, on a
    hit or a miss, resolved or rejected. *)
Theorem fetch_touches_only_own_cache_key env personDetails isMe w (key : string) :
  key ≠ id personDetails ->
  cache (snd (fetch env personDetails isMe w)) !! key = cache w !! key.
Proof.
  intros Hkey. destruct (hit_or_miss env w (id personDetails)) as [(c & Hc & Hf) | Hm].
  - rewrite (fetch_hit _ _ _ _ _ _ _ _ _ Hc Hf). reflexivity.
  - pose proof (miss_cache env personDetails isMe w Hm) as Hcache.
    destruct (fst (fetch env personDetails isMe w)) as [card | e].
    + destruct Hcache as [t ->]. apply lookup_insert_ne. congruence.
    + rewrite Hcache. reflexivity.
Qed.

(** X4.  A fetch that rejects has written nothing: the cache is after the
    rejection what it was before. *)
Theorem rejected_fetch_leaves_cache env personDetails isMe w e :
  fst (fetch env personDetails isMe w) = Rejected e ->
  cache (snd (fetch env personDetails isMe w)) = cache w.
Proof.
  intros Hrej. destruct (hit_or_miss env w (id personDetails)) as [(c & Hc & Hf) | Hm].
  - rewrite (fetch_hit _ _ _ _ _ _ _ _ _ Hc Hf). reflexivity.
  - pose proof (miss_cache env personDetails isMe w Hm) as Hcache. rewrite Hrej in Hcache. exact Hcache.
Qed.

(** X5.  On a miss, an entity without a [classification] field whose
    [personType] key is present with the value [null] or [undefined] makes
    the fetch reject with a TypeError before anything else happens: no
    batch is created, no call is made, nothing is cached. *)
Theorem nullish_personType_rejects_on_miss env personDetails isMe w personType :
  staleOrAbsent env w (id personDetails) ->
  has_key (props personDetails) "classification" = false ->
  own (props personDetails) "personType" = Some personType ->
  nullish personType = true ->
  fetch env personDetails isMe w = (Rejected TypeError, w).
Proof.
  intros Hm Hc Hpt Hnull. rewrite (fetch_miss _ _ _ _ _ _ _ _ Hm).
  unfold isContactOrGroup, has_key in *. rewrite Hpt.
  destruct (own (props personDetails) "classification"); [discriminate |].
  destruct personType; try discriminate; reflexivity.
Qed.

(** X6.  The classification answers true exactly for the entities the data
    model calls a contact or a group: a [classification] field is present,
    or the [personType] descriptor has subclass PersonalContact or class
    Group. *)
Theorem isContactOrGroup_true_iff personDetails :
  isContactOrGroup personDetails = Resolved true ↔ classifiedContactOrGroup personDetails.
Proof.
  split; [| apply classified_isContactOrGroup].
  unfold isContactOrGroup, classifiedContactOrGroup, has_key.
  destruct (own (props personDetails) "classification"); [left; reflexivity |].
  destruct (own (props personDetails) "personType") as [pt |]; [| discriminate].
  simpl. intros H. right. exists pt. split; [reflexivity |].
  destruct (get pt "subclass") as [sub | e] eqn:Hsub; [| discriminate].
  simpl in H. destruct (strict_eq_str sub "PersonalContact") eqn:Hs.
  - left. destruct sub; try discriminate. simpl in Hs.
    apply bool_decide_eq_true in Hs. subst. reflexivity.
  - right. destruct (get pt "class") as [cls | e] eqn:Hcls; [| discriminate].
    simpl in H. inversion H as [Hg]. destruct cls; try discriminate. simpl in Hg.
    apply bool_decide_eq_true in Hg. subst. reflexivity.
Qed.

(** Case analysis on everything the batch assembly looks at. *)
Ltac batch_cases env email isMe b :=
  unfold enqueueRequests, buildOrgStructureRequest, buildWorksWithRequest,
    buildMessagesWithUserRequest, buildFilesRequest, batch_get, nonEmpty;
  destruct b, (organization (sections env)) as [[[|]] |], email as [?address |],
    (mailMessages (sections env)), (files (sections env)), isMe; simpl;
  try match goal with
      | |- context [bool_decide (?a = EmptyString)] =>
          destruct (bool_decide (a = EmptyString)); simpl
      end.

(** X7.  After a miss the batch that is executed holds, in this order: the
    [person] and [directReports] entries when the entity is not a contact
    or group and the organization section is on, followed by [people] when
    its works-with option is on; [messages] when the mail section is on and
    the entity has a non-empty address; [files] when the files section is
    on.  Nothing else is ever registered. *)
Theorem batch_names_follow_configuration env personDetails isMe w b :
  staleOrAbsent env w (id personDetails) ->
  isContactOrGroup personDetails = Resolved b ->
  ∃ batch rest,
    calls (snd (fetch env personDetails isMe w)) =
      (calls w ++ CreateBatch :: ExecuteAll batch :: rest)%list ∧
    br_id <$> batch =
      ((if negb b then
          match organization (sections env) with
          | Some org =>
              ["person"; "directReports"] ++ (if showWorksWith org then ["people"] else [])
          | None => []
          end
        else []) ++
       (if mailMessages (sections env) && nonEmpty (getEmailFromGraphEntity personDetails)
        then ["messages"] else []) ++
       (if files (sections env) then ["files"] else []))%list.
Proof.
  intros Hm Hcg. rewrite (miss_calls _ _ _ _ _ Hm Hcg). eexists _, _. split; [reflexivity |].
  generalize (getEmailFromGraphEntity personDetails) as email. intros email.
  batch_cases env email isMe b; reflexivity.
Qed.

(** X8.  Whatever the configuration, the entity and the flags, the names
    registered in one batch are pairwise distinct and at most five, and the
    works-with entry never comes without the two entries of the org
    structure. *)
Theorem batch_names_never_collide env userId email isMe b :
  NoDup (br_id <$> enqueue env [] userId email isMe b) ∧
  (length (enqueue env [] userId email isMe b) ≤ 5)%nat ∧
  ("people" ∈ br_id <$> enqueue env [] userId email isMe b ->
   "person" ∈ br_id <$> enqueue env [] userId email isMe b ∧
   "directReports" ∈ br_id <$> enqueue env [] userId email isMe b).
Proof.
  batch_cases env email isMe b;
    (split; [by_evaluation | split; [lia |]]);
    intros Hp; (split; by_evaluation) ||
      (exfalso; repeat (apply elem_of_cons in Hp as [Hp | Hp]; [discriminate Hp |]);
       inversion Hp).
Qed.

(** X9.  When the files section is on, the files entry is the last one of
    the batch and carries the insight scopes.  It asks for the files shared
    by the entity's address only when the entity is not the signed-in user
    and has a non-empty address; for the signed-in user, and for an entity
    without an address or with an empty one, it asks for the files used by
    the signed-in user. *)
Theorem files_request_follows_isMe_and_address env userId email isMe b :
  files (sections env) = true ->
  ∃ earlier,
    enqueue env [] userId email isMe b =
      (earlier ++
       [mkBatchRequest "files"
          (match email with
           | Some address =>
               if negb isMe && nonEmpty email
               then "me/insights/shared?$filter=lastshared/sharedby/address eq '"
                      +:+ address +:+ "'"
               else "me/insights/used"
           | None => "me/insights/used"
           end)
          (Some validInsightScopes) None])%list ∧
    Forall (fun r => br_id r ≠ "files") earlier.
Proof.
  intros Hfiles. revert Hfiles.
  batch_cases env email isMe b; intros Hfiles; try discriminate Hfiles;
    match goal with
    | |- ∃ earlier, ?l = (earlier ++ [_])%list ∧ _ =>
        exists (removelast l); split; [reflexivity |];
        simpl; repeat (constructor; [simpl; discriminate |]); constructor
    end.
Qed.

(** X10.  One fetch adds to the log of calls nothing at all, or the creation
    and execution of one batch, or these two followed by one GET of the
    entity's profile; it never posts. *)
Theorem fetch_makes_at_most_three_calls env personDetails isMe w :
  ∃ new,
    calls (snd (fetch env personDetails isMe w)) = (calls w ++ new)%list ∧
    (new = [] ∨
     ∃ batch,
       new = [CreateBatch; ExecuteAll batch] ∨
       new = [CreateBatch; ExecuteAll batch; ApiGet (profileRequest (id personDetails))]).
Proof.
  destruct (hit_or_miss env w (id personDetails)) as [(c & Hc & Hf) | Hm].
  - exists []. rewrite (fetch_hit _ _ _ _ _ _ _ _ _ Hc Hf), app_nil_r. auto.
  - destruct (isContactOrGroup personDetails) as [b | e] eqn:Hcg.
    + rewrite (miss_calls _ _ _ _ _ Hm Hcg). eexists. split; [reflexivity |].
      right. eexists. destruct (negb b && profile (sections env)); [right | left]; reflexivity.
    + exists []. rewrite (fetch_miss _ _ _ _ _ _ _ _ Hm), Hcg, app_nil_r. auto.
Qed.

(** X11.  With the organization, mail and files sections all off, a miss
    still creates a batch and executes it, empty. *)
Theorem empty_batch_is_still_executed env personDetails isMe w b :
  staleOrAbsent env w (id personDetails) ->
  isContactOrGroup personDetails = Resolved b ->
  organization (sections env) = None ->
  mailMessages (sections env) = false ->
  files (sections env) = false ->
  ∃ rest,
    calls (snd (fetch env personDetails isMe w)) =
      (calls w ++ CreateBatch :: ExecuteAll [] :: rest)%list.
Proof.
  intros Hm Hcg Ho Hmail Hfiles. rewrite (miss_calls _ _ _ _ _ Hm Hcg).
  assert (Hempty : enqueue env [] (id personDetails)
                     (getEmailFromGraphEntity personDetails) isMe b = []).
  { unfold enqueueRequests. rewrite Ho, Hmail, Hfiles.
    destruct b, (getEmailFromGraphEntity personDetails); reflexivity. }
  rewrite Hempty. eexists. reflexivity.
Qed.

(** The callback of the post-filter. *)
Abbreviation readsAccountEnabled :=
  (fun report : value =>
     accountEnabled ← get report "accountEnabled"; Resolved (truthy accountEnabled)).

Lemma js_filter_kept reports kept :
  js_filter readsAccountEnabled reports = Resolved kept ->
  js_filter readsAccountEnabled kept = Resolved kept.
Proof.
  revert kept. induction reports as [| r reports IH]; intros kept H.
  - inversion H. reflexivity.
  - simpl in H. unfold mbind, Outcome_bind in H.
    destruct (get r "accountEnabled") as [v | e] eqn:Hget; [| discriminate].
    destruct (js_filter _ reports) as [kept' | e] eqn:Hrest; [| discriminate].
    specialize (IH kept' eq_refl). inversion H as [Hk].
    destruct (truthy v) eqn:Hv; [| exact IH].
    simpl. rewrite Hget. unfold mbind, Outcome_bind in *. rewrite IH, Hv. reflexivity.
Qed.

Lemma js_filter_nullish reports r :
  r ∈ reports -> nullish r = true ->
  js_filter readsAccountEnabled reports = Rejected TypeError.
Proof.
  intros Hin Hnull. induction reports as [| r0 reports IH]; [inversion Hin |].
  simpl. unfold mbind, Outcome_bind.
  destruct (get r0 "accountEnabled") as [v | e] eqn:Hget.
  - apply elem_of_cons in Hin as [-> | Hin].
    + destruct r0; discriminate.
    + unfold mbind, Outcome_bind in IH. rewrite (IH Hin). reflexivity.
  - destruct r0; simpl in Hget; try discriminate; inversion Hget; reflexivity.
Qed.

Lemma js_filter_error reports e :
  js_filter readsAccountEnabled reports = Rejected e -> e = TypeError.
Proof.
  induction reports as [| r reports IH]; [discriminate |].
  simpl. unfold mbind, Outcome_bind.
  destruct (get r "accountEnabled") as [v | e'] eqn:Hget.
  - unfold mbind, Outcome_bind in IH.
    destruct (js_filter _ reports) as [kept | e']; [discriminate |].
    intros H. inversion H; subst. apply IH. reflexivity.
  - intros H. inversion H; subst. destruct r; simpl in Hget; try discriminate;
      inversion Hget; reflexivity.
Qed.

(** The post-filter adds no key. *)
Lemma postFilter_keys (data data' : gmap string value) (k : string) :
  postFilter data = Resolved data' -> is_Some (data' !! k) -> is_Some (data !! k).
Proof.
  unfold filterDirectReports. intros H Hk.
  destruct (data !! "directReports") as [dr |] eqn:Hd; simpl in H;
    [| inversion H; subst; assumption].
  destruct (truthy dr); [| inversion H; subst; assumption].
  destruct (get dr "length") as [len | e]; simpl in H; [| discriminate].
  destruct (js_gt0 _ len) as [[|] | e]; simpl in H;
    [| inversion H; subst; assumption | discriminate].
  destruct dr; try discriminate.
  destruct (js_filter _ items) as [kept | e]; simpl in H; [| discriminate].
  inversion H; subst. destruct (decide (k = "directReports")) as [-> | Hne].
  - rewrite Hd. eauto.
  - rewrite lookup_insert_ne in Hk by congruence. assumption.
Qed.


(** X13.  The post-filter is idempotent: applied to a record it has already
    filtered it resolves with that record unchanged. *)
Theorem postFilter_is_idempotent (data data' : gmap string value) :
  postFilter data = Resolved data' -> postFilter data' = Resolved data'.
Proof.
  intros H. pose proof H as H0. unfold filterDirectReports in H.
  destruct (data !! "directReports") as [dr |] eqn:Hd; simpl in H;
    [| inversion H; subst; exact H0].
  destruct (truthy dr) eqn:Ht; [| inversion H; subst; exact H0].
  destruct (get dr "length") as [len | e] eqn:Hlen; simpl in H; [| discriminate].
  destruct (js_gt0 _ len) as [[|] | e] eqn:Hgt; simpl in H;
    [| inversion H; subst; exact H0 | discriminate].
  destruct dr; try discriminate.
  destruct (js_filter _ items) as [kept | e] eqn:Hf; simpl in H; [| discriminate].
  inversion H; subst. clear H H0.
  unfold filterDirectReports. rewrite lookup_insert_eq. simpl.
  destruct kept as [| r kept]; [reflexivity |].
  unfold mbind at 1. unfold Outcome_bind at 1.
  replace (0 <? Z.of_nat (length (r :: kept))) with true
    by (symmetry; apply Z.ltb_lt; simpl; lia).
  unfold mbind at 1. unfold Outcome_bind at 1.
  pose proof (js_filter_kept _ _ Hf) as Hk. unfold mbind, Outcome_bind in Hk.
  rewrite Hk. rewrite insert_insert_eq. reflexivity.
Qed.

(** X14.  A [directReports] payload that is an object without a [length]
    property, such as an error body, is not filtered: the fetch resolves
    with the gathered record as it is. *)
Theorem payload_without_length_is_left_alone env personDetails isMe w b
    (gathered : gmap string value) w1 fields :
  staleOrAbsent env w (id personDetails) ->
  isContactOrGroup personDetails = Resolved b ->
  gather env (id personDetails) (getEmailFromGraphEntity personDetails) isMe b w
    = (Resolved gathered, w1) ->
  gathered !! "directReports" = Some (VObj fields) ->
  own fields "length" = None ->
  ∃ w', fetch env personDetails isMe w = (Resolved (mkCacheCardState gathered None), w').
Proof.
  intros Hm Hcg Hg Hd Hlen. rewrite (fetch_miss _ _ _ _ _ _ _ _ Hm), Hcg, Hg.
  unfold filterDirectReports. rewrite Hd. simpl. rewrite Hlen. simpl. eauto.
Qed.

(** X15.  A fetched list of direct reports that holds a [null] or
    [undefined] entry makes the fetch reject with a TypeError, after the
    remote calls were made; the record is not cached. *)
Theorem nullish_report_rejects_the_fetch env personDetails isMe w b
    (gathered : gmap string value) w1 reports r :
  staleOrAbsent env w (id personDetails) ->
  isContactOrGroup personDetails = Resolved b ->
  gather env (id personDetails) (getEmailFromGraphEntity personDetails) isMe b w
    = (Resolved gathered, w1) ->
  gathered !! "directReports" = Some (VArr reports) ->
  r ∈ reports ->
  nullish r = true ->
  fetch env personDetails isMe w = (Rejected TypeError, w1) ∧ cache w1 = cache w.
Proof.
  intros Hm Hcg Hg Hd Hin Hnull. split.
  - rewrite (fetch_miss _ _ _ _ _ _ _ _ Hm), Hcg, Hg.
    unfold filterDirectReports. rewrite Hd. simpl.
    destruct reports as [| r0 reports]; [inversion Hin |].
    unfold mbind at 1. unfold Outcome_bind at 1.
    replace (0 <? Z.of_nat (length (r0 :: reports))) with true
      by (symmetry; apply Z.ltb_lt; simpl; lia).
    unfold mbind at 1. unfold Outcome_bind at 1.
    pose proof (js_filter_nullish _ _ Hin Hnull) as Hf. unfold mbind, Outcome_bind in Hf.
    rewrite Hf. reflexivity.
  - rewrite gather_run in Hg. cbv zeta in Hg.
    destruct (negb b && profile (sections env)); inversion Hg; reflexivity.
Qed.

(** The keys of the record a miss returns. *)
Lemma miss_record_keys env personDetails isMe w b card w' (k : string) :
  staleOrAbsent env w (id personDetails) ->
  isContactOrGroup personDetails = Resolved b ->
  fetch env personDetails isMe w = (Resolved card, w') ->
  is_Some (state card !! k) ->
  (k = "profile" ∧ negb b && profile (sections env) = true) ∨
  k ∈ (default [] (executeAll_answer env
                     (enqueue env [] (id personDetails)
                        (getEmailFromGraphEntity personDetails) isMe b))).*1.
Proof.
  intros Hm Hcg Hrun Hk. rewrite (fetch_miss _ _ _ _ _ _ _ _ Hm), Hcg, gather_run in Hrun.
  cbv zeta in Hrun.
  set (resp := default [] (executeAll_answer env _)) in *.
  assert (Hmerged : is_Some (mergeResponses resp ∅ !! k) -> k ∈ resp.*1).
  { intros [v Hv]. destruct (merge_lookup_Some _ _ _ Hv) as (r & Hin & _).
    apply list_elem_of_fmap. exists (k, r). split; [reflexivity | assumption]. }
  destruct (negb b && profile (sections env)).
  - destruct (decide (k = "profile")) as [-> | Hne]; [left; split; reflexivity | right].
    apply Hmerged.
    destruct (filterDirectReports _ _) as [data' | e] eqn:Hpf; try discriminate.
    inversion Hrun; subst; simpl in Hk. apply (postFilter_keys _ _ _ Hpf) in Hk.
    repeat match type of Hk with
           | context [match ?x with _ => _ end] => destruct x
           end;
      rewrite ?lookup_insert_ne in Hk by congruence; exact Hk.
  - right. apply Hmerged.
    destruct (filterDirectReports _ _) as [data' | e] eqn:Hpf; try discriminate.
    inversion Hrun; subst; simpl in Hk. apply (postFilter_keys _ _ _ Hpf) in Hk. exact Hk.
Qed.

(** X16.  The record a miss returns has no key of its own making: each of
    its keys is the name of a response of the batch, or it is [profile],
    and then the entity is not a contact or group and the profile section
    is on. *)
Theorem returned_keys_come_from_responses env personDetails isMe w b card w' (k : string) :
  staleOrAbsent env w (id personDetails) ->
  isContactOrGroup personDetails = Resolved b ->
  fetch env personDetails isMe w = (Resolved card, w') ->
  is_Some (state card !! k) ->
  (k = "profile" ∧ negb b && profile (sections env) = true) ∨
  k ∈ (default [] (executeAll_answer env
                     (enqueue env [] (id personDetails)
                        (getEmailFromGraphEntity personDetails) isMe b))).*1.
Proof. apply miss_record_keys. Qed.

(** X17.  [sendMessage] makes exactly one call: a POST of the message body
    as it was given to the messages endpoint of the chat, with the no-store
    header and the message-send scopes.  It resolves with what the endpoint
    answers and rejects when the POST fails; the cache is not touched. *)
Theorem sendMessage_posts_the_body_and_propagates env chatId messageData w :
  ∃ req,
    req = mkGraphRequest ("/chats/" +:+ chatId +:+ "/messages") None
            [("Cache-Control", "no-store")] validSendChatMessageScopes ∧
    calls (snd (sendMessage env chatId messageData w)) =
      (calls w ++ [ApiPost req messageData])%list ∧
    cache (snd (sendMessage env chatId messageData w)) = cache w ∧
    (∀ message, fst (sendMessage env chatId messageData w) = Resolved message ↔
                post_answer env req messageData = Some message) ∧
    (fst (sendMessage env chatId messageData w) = Rejected RemoteFailure ↔
     post_answer env req messageData = None).
Proof.
  eexists. split; [reflexivity |]. unfold sendMessage, api_post, remote.
  destruct (post_answer env _ messageData) as [m |]; simpl;
    repeat split; try reflexivity; intros; congruence.
Qed.

(** X18.  [createChat] does not contain a failure: it makes one POST,
    resolves with the chat the endpoint answers and rejects when the POST
    fails; the cache is not touched. *)
Theorem createChat_propagates_the_outcome env person user w :
  ∃ req body,
    calls (snd (createChat env person user w)) = (calls w ++ [ApiPost req body])%list ∧
    cache (snd (createChat env person user w)) = cache w ∧
    (∀ chat, fst (createChat env person user w) = Resolved chat ↔
             post_answer env req body = Some chat) ∧
    (fst (createChat env person user w) = Rejected RemoteFailure ↔
     post_answer env req body = None).
Proof.
  unfold createChat, api_post, remote. eexists _, _.
  split; [destruct (post_answer env _ _); reflexivity |].
  destruct (post_answer env _ _) as [chat |]; simpl;
    repeat split; try reflexivity; intros; congruence.
Qed.

Lemma isContactOrGroup_error personDetails e :
  isContactOrGroup personDetails = Rejected e -> e = TypeError.
Proof.
  unfold isContactOrGroup.
  destruct (has_key _ "classification"); [discriminate |].
  destruct (has_key _ "personType"); [| discriminate].
  destruct (default VUndefined (own (props personDetails) "personType"));
    simpl; try discriminate; try (intros H; inversion H; reflexivity);
    repeat match goal with
           | |- context [if ?c then _ else _] => destruct c
           end; discriminate.
Qed.

(** X19.  No failure of a remote call reaches the caller of the fetch:
    when the fetch rejects, the error is a TypeError raised by the
    language, never the failure of the batch or of the profile endpoint.
    The coercion left as a parameter is assumed to raise nothing else, and
    the cache store, as its contract has it, does not fail. *)
Theorem fetch_never_surfaces_a_remote_failure env personDetails isMe w e :
  (∀ v e', coerced_gt0 v = Rejected e' -> e' = TypeError) ->
  fst (fetch env personDetails isMe w) = Rejected e ->
  e = TypeError.
Proof.
  intros Hco Hrej. destruct (hit_or_miss env w (id personDetails)) as [(c & Hc & Hf) | Hm].
  - rewrite (fetch_hit _ _ _ _ _ _ _ _ _ Hc Hf) in Hrej. discriminate.
  - rewrite (fetch_miss _ _ _ _ _ _ _ _ Hm) in Hrej.
    destruct (isContactOrGroup personDetails) as [b | e0] eqn:Hcg.
    + rewrite gather_run in Hrej. cbv zeta in Hrej.
      assert (Hpf : ∀ data, postFilter data = Rejected e -> e = TypeError).
      { intros data. unfold filterDirectReports.
        destruct (truthy _); [| discriminate].
        destruct (get _ "length") as [len | e0] eqn:Hlen; simpl.
        - destruct (js_gt0 _ len) as [[|] | e0] eqn:Hgt; simpl; try discriminate.
          + destruct (default VUndefined (data !! "directReports"));
              try (intros H; inversion H; reflexivity).
            destruct (js_filter _ items) as [kept | e0] eqn:Hfl; simpl; [discriminate |].
            intros H. inversion H; subst. apply (js_filter_error items).
            unfold mbind, Outcome_bind. exact Hfl.
          + intros H. inversion H; subst.
            destruct len; simpl in Hgt; try discriminate; apply (Hco _ _ Hgt).
        - intros H. inversion H; subst.
          destruct (default VUndefined (data !! "directReports"));
            simpl in Hlen; try discriminate; inversion Hlen; reflexivity. }
      destruct (negb b && profile (sections env));
        destruct (filterDirectReports _ _) as [data' | e0] eqn:Hrun; try discriminate;
        simpl in Hrej; inversion Hrej; subst; apply (Hpf _ Hrun).
    + simpl in Hrej. inversion Hrej; subst. apply (isContactOrGroup_error _ _ Hcg).
Qed.

(** X20.  The mail search is registered only when the mail section is on
    and the entity has an address that is not the empty string, and it then
    searches the signed-in user's mail for that address, quoted, under the
    mail-read scopes. *)
Theorem mail_search_needs_an_address env userId email isMe b r :
  r ∈ enqueue env [] userId email isMe b ->
  br_id r = "messages" ->
  mailMessages (sections env) = true ∧
  ∃ address,
    email = Some address ∧ address ≠ EmptyString ∧
    r = mkBatchRequest "messages"
          ("me/messages?$search=" +:+ dquote +:+ "from:" +:+ address +:+ dquote)
          (Some ["Mail.ReadBasic"; "Mail.Read"; "Mail.ReadWrite"]) None.
Proof.
  unfold enqueueRequests, buildOrgStructureRequest, buildWorksWithRequest,
    buildMessagesWithUserRequest, buildFilesRequest, batch_get, nonEmpty.
  destruct b, (organization (sections env)) as [[[|]] |], email as [address |],
    (mailMessages (sections env)), (files (sections env)), isMe; simpl;
    try case_bool_decide; simpl; intros Hin Hid;
    repeat (apply elem_of_cons in Hin as [-> | Hin]); try (inversion Hin; fail);
    try discriminate Hid; (split; [reflexivity |]); eauto.
Qed.

(** X21.  For a contact or a group, when the batch endpoint answers under
    the names of the requests it was given, the returned record can hold
    [messages] and [files] and nothing else: no person, no direct reports,
    no people, no profile. *)
Theorem contact_or_group_record_holds_mail_and_files_only env personDetails isMe w
    card w' (k : string) :
  staleOrAbsent env w (id personDetails) ->
  classifiedContactOrGroup personDetails ->
  (∀ resp name,
     executeAll_answer env
       (enqueue env [] (id personDetails) (getEmailFromGraphEntity personDetails)
          isMe true) = Some resp ->
     name ∈ resp.*1 ->
     name ∈ br_id <$> enqueue env [] (id personDetails)
                        (getEmailFromGraphEntity personDetails) isMe true) ->
  fetch env personDetails isMe w = (Resolved card, w') ->
  is_Some (state card !! k) ->
  k = "messages" ∨ k = "files".
Proof.
  intros Hm Hcls Hnames Hrun Hk. apply classified_isContactOrGroup in Hcls.
  destruct (miss_record_keys _ _ _ _ _ _ _ _ Hm Hcls Hrun Hk) as [[_ Hp] | Hin];
    [discriminate Hp |].
  destruct (executeAll_answer env _) as [resp |] eqn:Hresp; [| inversion Hin].
  simpl in Hin. apply (Hnames resp k eq_refl) in Hin.
  apply list_elem_of_fmap in Hin as (r & -> & Hr).
  pose proof (enqueue_contact_or_group validUserByIdScopes validInsightScopes env
                (id personDetails) (getEmailFromGraphEntity personDetails) isMe) as Hall.
  rewrite Forall_forall in Hall. exact (Hall r Hr).
Qed.

(** X22.  The two remote calls are isolated from one another: when the
    batch throws and the profile endpoint then answers with a truthy
    profile, the fetch resolves with the record that holds the profile, and
    that record is cached under the entity id. *)
Theorem failed_batch_does_not_stop_the_profile env personDetails isMe w fetched :
  staleOrAbsent env w (id personDetails) ->
  isContactOrGroup personDetails = Resolved false ->
  profile (sections env) = true ->
  executeAll_answer env
    (enqueue env [] (id personDetails) (getEmailFromGraphEntity personDetails)
       isMe false) = None ->
  get_answer env (profileRequest (id personDetails)) = Some fetched ->
  truthy fetched = true ->
  ∃ w',
    fetch env personDetails isMe w
      = (Resolved (mkCacheCardState {[ "profile" := fetched ]} None), w') ∧
    cache w' !! id personDetails
      = Some (mkCacheCardState {[ "profile" := fetched ]} (Some (clock w'))).
Proof.
  intros Hm Hcg Hprofile Hthrow Hanswer Htruthy.
  rewrite (fetch_miss _ _ _ _ _ _ _ _ Hm), Hcg, gather_run. cbv zeta.
  rewrite Hthrow, Hprofile, Hanswer, Htruthy. simpl.
  change (mergeResponses [] ∅) with (∅ : gmap string value).
  rewrite postFilter_absent by (rewrite lookup_insert_ne by discriminate; apply lookup_empty).
  eexists. split; [reflexivity |]. simpl. apply lookup_insert_eq.
Qed.

Lemma js_filter_all_enabled reports kept r :
  js_filter readsAccountEnabled reports = Resolved kept ->
  r ∈ kept -> truthy (get_opt r "accountEnabled") = true.
Proof.
  revert kept. induction reports as [| r0 reports IH]; intros kept H Hr.
  - inversion H; subst. inversion Hr.
  - simpl in H. unfold mbind, Outcome_bind in H.
    destruct (get r0 "accountEnabled") as [v | e] eqn:Hget; [| discriminate].
    destruct (js_filter _ reports) as [kept' | e] eqn:Hrest; [| discriminate].
    inversion H as [Hk]. destruct (truthy v) eqn:Hv.
    + subst. apply elem_of_cons in Hr as [-> | Hr].
      * unfold get_opt. rewrite Hget. exact Hv.
      * apply (IH kept' eq_refl Hr).
    + subst. apply (IH kept eq_refl Hr).
Qed.

Lemma postFilter_only_enabled (data data' : gmap string value) :
  postFilter data = Resolved data' -> onlyEnabledReports data'.
Proof.
  unfold filterDirectReports, onlyEnabledReports. intros H reports r Hd Hr.
  destruct (data !! "directReports") as [dr |] eqn:Hdr; simpl in H;
    [| inversion H; subst; congruence].
  destruct (truthy dr) eqn:Ht;
    [| inversion H; subst; rewrite Hdr in Hd; inversion Hd; subst; discriminate Ht].
  destruct (get dr "length") as [len | e] eqn:Hlen; simpl in H; [| discriminate].
  destruct (js_gt0 _ len) as [[|] | e] eqn:Hgt; simpl in H; [| | discriminate].
  - destruct dr; try discriminate.
    destruct (js_filter _ items) as [kept | e] eqn:Hf; simpl in H; [| discriminate].
    inversion H; subst. rewrite lookup_insert_eq in Hd. inversion Hd; subst.
    apply (js_filter_all_enabled items reports r); [| assumption].
    unfold mbind, Outcome_bind. exact Hf.
  - inversion H; subst. rewrite Hdr in Hd. inversion Hd; subst.
    simpl in Hlen. inversion Hlen; subst. simpl in Hgt. inversion Hgt as [Hz].
    apply Z.ltb_ge in Hz. destruct reports; [inversion Hr | simpl in Hz; lia].
Qed.

(** X23.  The cache keeps an invariant across fetches: when every card
    state in the cache has only enabled direct reports, the same is true of
    the cache after any fetch, and of the state the fetch resolves with,
    be it served from the cache or freshly assembled. *)
Theorem cache_holds_only_enabled_reports env personDetails isMe w :
  (∀ (key : string) cardState,
     cache w !! key = Some cardState -> onlyEnabledReports (state cardState)) ->
  (∀ (key : string) cardState,
     cache (snd (fetch env personDetails isMe w)) !! key = Some cardState ->
     onlyEnabledReports (state cardState)) ∧
  (∀ card, fst (fetch env personDetails isMe w) = Resolved card ->
           onlyEnabledReports (state card)).
Proof.
  intros Hinv. destruct (hit_or_miss env w (id personDetails)) as [(c & Hc & Hf) | Hm].
  - rewrite (fetch_hit _ _ _ _ _ _ _ _ _ Hc Hf). simpl. split; [exact Hinv |].
    intros card Hcard. inversion Hcard; subst. apply (Hinv _ _ Hc).
  - rewrite (fetch_miss _ _ _ _ _ _ _ _ Hm).
    destruct (isContactOrGroup personDetails) as [b | e]; simpl;
      [| split; [exact Hinv | discriminate]].
    rewrite gather_run. cbv zeta.
    destruct (negb b && profile (sections env));
      destruct (filterDirectReports _ _) as [data' | e] eqn:Hpf; simpl;
      try (split; [exact Hinv | discriminate]);
      (split;
       [ intros key cardState Hkey;
         destruct (decide (key = id personDetails)) as [-> | Hne];
         [ rewrite lookup_insert_eq in Hkey; inversion Hkey; subst; simpl;
           apply (postFilter_only_enabled _ _ Hpf)
         | rewrite lookup_insert_ne in Hkey by congruence; apply (Hinv _ _ Hkey) ]
       | intros card Hcard; inversion Hcard; subst; simpl;
         apply (postFilter_only_enabled _ _ Hpf) ]).
Qed.

End Further.

(** ** The further properties on the sample data *)

(** The entry cached at 400 is served at 1000 under the default period. *)
Lemma entry_served_iff_younger_than_period_witness :
  cache Sample.warm !! "u1" = Some Sample.cachedCard ∧
  (Sample.fetch Sample.env Sample.u1 false Sample.warm
     = (Resolved Sample.cachedCard, Sample.warm) ↔
   clock Sample.warm - 400 < 3600000).
Proof.
  assert (H1 : cache Sample.warm !! id Sample.u1 = Some Sample.cachedCard)
    by (vm_compute; reflexivity).
  split; [exact H1 |].
  exact (proj1 (entry_served_iff_younger_than_period Sample.userScopes Sample.insightScopes
                  Sample.mailOf Sample.noCoercion Sample.env Sample.u1 false Sample.warm
                  Sample.cachedCard 400 H1 eq_refl) (or_introl eq_refl)).
Defined.

(** The entry without a timestamp is not served. *)
Lemma unstamped_entry_is_refetched_witness :
  (∃ cardState, cache Sample.unstamped !! "u1" = Some cardState ∧
                timeCached cardState = None) ∧
  ∃ batch rest,
    calls (snd (Sample.fetch Sample.env Sample.u1 false Sample.unstamped)) =
      CreateBatch :: ExecuteAll batch :: rest.
Proof.
  assert (H1 : cache Sample.unstamped !! id Sample.u1 =
               Some (mkCacheCardState
                       {[ "person" := VObj [("displayName", VStr "Uma")] ]} None))
    by (vm_compute; reflexivity).
  split; [eexists; split; [exact H1 | reflexivity] |].
  exact (unstamped_entry_is_refetched Sample.userScopes Sample.insightScopes
           Sample.mailOf Sample.noCoercion Sample.env Sample.u1 false Sample.unstamped
           _ false H1 eq_refl eq_refl).
Defined.

(** Fetching the group leaves the entry of [u1] alone. *)
Lemma fetch_touches_only_own_cache_key_witness :
  "u1" ≠ id Sample.team ∧
  cache (snd (Sample.fetch Sample.env Sample.team false Sample.warm)) !! "u1"
    = cache Sample.warm !! "u1".
Proof.
  assert (H1 : "u1" ≠ id Sample.team) by discriminate.
  split; [exact H1 |].
  exact (fetch_touches_only_own_cache_key Sample.userScopes Sample.insightScopes
           Sample.mailOf Sample.noCoercion Sample.env Sample.team false Sample.warm
           "u1" H1).
Defined.

(** The fetch for the entity with a null [personType] rejects and caches
    nothing. *)
Lemma rejected_fetch_leaves_cache_witness :
  fst (Sample.fetch Sample.env Sample.broken false Sample.warm) = Rejected TypeError ∧
  cache (snd (Sample.fetch Sample.env Sample.broken false Sample.warm)) = cache Sample.warm.
Proof.
  assert (H1 : fst (Sample.fetch Sample.env Sample.broken false Sample.warm)
               = Rejected TypeError) by (vm_compute; reflexivity).
  split; [exact H1 |].
  exact (rejected_fetch_leaves_cache Sample.userScopes Sample.insightScopes
           Sample.mailOf Sample.noCoercion Sample.env Sample.broken false Sample.warm
           TypeError H1).
Defined.

Lemma nullish_personType_rejects_on_miss_witness :
  own (props Sample.broken) "personType" = Some VNull ∧
  Sample.fetch Sample.env Sample.broken false Sample.cold = (Rejected TypeError, Sample.cold).
Proof.
  assert (H1 : staleOrAbsent Sample.env Sample.cold (id Sample.broken))
    by (vm_compute; exact I).
  split; [reflexivity |].
  exact (nullish_personType_rejects_on_miss Sample.userScopes Sample.insightScopes
           Sample.mailOf Sample.noCoercion Sample.env Sample.broken false Sample.cold
           VNull H1 eq_refl eq_refl eq_refl).
Defined.

(** With every section on, the batch for [u1] has the five names. *)
Lemma batch_names_follow_configuration_witness :
  isContactOrGroup Sample.u1 = Resolved false ∧
  ∃ batch rest,
    calls (snd (Sample.fetch Sample.env Sample.u1 false Sample.cold)) =
      CreateBatch :: ExecuteAll batch :: rest ∧
    br_id <$> batch = ["person"; "directReports"; "people"; "messages"; "files"].
Proof.
  assert (H1 : staleOrAbsent Sample.env Sample.cold (id Sample.u1))
    by (vm_compute; exact I).
  split; [reflexivity |].
  exact (batch_names_follow_configuration Sample.userScopes Sample.insightScopes
           Sample.mailOf Sample.noCoercion Sample.env Sample.u1 false Sample.cold
           false H1 eq_refl).
Defined.

(** For [u1], who is not the signed-in user, the files shared by the
    address are asked for. *)
Lemma files_request_follows_isMe_and_address_witness :
  files (sections Sample.env) = true ∧
  ∃ earlier,
    Sample.batch =
      (earlier ++
       [mkBatchRequest "files"
          "me/insights/shared?$filter=lastshared/sharedby/address eq 'u1@x.com'"
          (Some Sample.insightScopes) None])%list ∧
    Forall (fun r => br_id r ≠ "files") earlier.
Proof.
  split; [reflexivity |].
  exact (files_request_follows_isMe_and_address Sample.userScopes Sample.insightScopes
           Sample.env "u1" (Some "u1@x.com") false false eq_refl).
Defined.

(** With no section on, the empty batch is executed. *)
Lemma empty_batch_is_still_executed_witness :
  organization (sections Sample.bare) = None ∧
  ∃ rest,
    calls (snd (Sample.fetch Sample.bare Sample.u1 false Sample.cold)) =
      CreateBatch :: ExecuteAll [] :: rest.
Proof.
  assert (H1 : staleOrAbsent Sample.bare Sample.cold (id Sample.u1))
    by (vm_compute; exact I).
  split; [reflexivity |].
  exact (empty_batch_is_still_executed Sample.userScopes Sample.insightScopes
           Sample.mailOf Sample.noCoercion Sample.bare Sample.u1 false Sample.cold
           false H1 eq_refl eq_refl eq_refl eq_refl).
Defined.


(** Filtering the record returned for [u1] again changes nothing. *)
Lemma postFilter_is_idempotent_witness :
  filterDirectReports Sample.noCoercion Sample.gathered = Resolved Sample.returned ∧
  filterDirectReports Sample.noCoercion Sample.returned = Resolved Sample.returned.
Proof.
  assert (H1 : filterDirectReports Sample.noCoercion Sample.gathered
               = Resolved Sample.returned) by (vm_compute; reflexivity).
  split; [exact H1 |].
  exact (postFilter_is_idempotent Sample.noCoercion Sample.gathered Sample.returned H1).
Defined.

(** The error body under [directReports] comes back as it is. *)
Lemma payload_without_length_is_left_alone_witness :
  own [("error", VObj [("code", VStr "Forbidden")])] "length" = None ∧
  ∃ w',
    Sample.fetch Sample.refusing Sample.u1 false Sample.cold
      = (Resolved (mkCacheCardState {[ "directReports" := Sample.forbidden ]} None), w').
Proof.
  assert (H1 : staleOrAbsent Sample.refusing Sample.cold (id Sample.u1))
    by (vm_compute; exact I).
  assert (H3 : gatherCardData Sample.userScopes Sample.insightScopes Sample.refusing
                 (id Sample.u1) (Sample.mailOf Sample.u1) false false Sample.cold
               = (Resolved {[ "directReports" := Sample.forbidden ]}, Sample.afterGather))
    by (vm_compute; reflexivity).
  assert (H4 : ({[ "directReports" := Sample.forbidden ]} : gmap string value)
                 !! "directReports"
               = Some (VObj [("error", VObj [("code", VStr "Forbidden")])]))
    by (vm_compute; reflexivity).
  split; [reflexivity |].
  exact (payload_without_length_is_left_alone Sample.userScopes Sample.insightScopes
           Sample.mailOf Sample.noCoercion Sample.refusing Sample.u1 false Sample.cold
           false _ Sample.afterGather _ H1 eq_refl H3 H4 eq_refl).
Defined.

(** The list with a hole makes the fetch reject. *)
Lemma nullish_report_rejects_the_fetch_witness :
  VNull ∈ [Sample.ann; VNull] ∧
  Sample.fetch Sample.holed Sample.u1 false Sample.cold
    = (Rejected TypeError, Sample.afterGather) ∧
  cache Sample.afterGather = cache Sample.cold.
Proof.
  assert (H1 : staleOrAbsent Sample.holed Sample.cold (id Sample.u1))
    by (vm_compute; exact I).
  assert (H3 : gatherCardData Sample.userScopes Sample.insightScopes Sample.holed
                 (id Sample.u1) (Sample.mailOf Sample.u1) false false Sample.cold
               = (Resolved {[ "directReports" := VArr [Sample.ann; VNull] ]},
                  Sample.afterGather))
    by (vm_compute; reflexivity).
  assert (H4 : ({[ "directReports" := VArr [Sample.ann; VNull] ]} : gmap string value)
                 !! "directReports" = Some (VArr [Sample.ann; VNull]))
    by (vm_compute; reflexivity).
  assert (H5 : VNull ∈ [Sample.ann; VNull])
    by (apply elem_of_cons; right; apply elem_of_cons; left; reflexivity).
  split; [exact H5 |].
  exact (nullish_report_rejects_the_fetch Sample.userScopes Sample.insightScopes
           Sample.mailOf Sample.noCoercion Sample.holed Sample.u1 false Sample.cold
           false _ Sample.afterGather _ VNull H1 eq_refl H3 H4 H5 eq_refl).
Defined.

(** The [person] key of the record returned for [u1] names a response. *)
Lemma returned_keys_come_from_responses_witness :
  is_Some (Sample.returned !! "person") ∧
  ("person" = "profile" ∧ negb false && profile (sections Sample.env) = true ∨
   "person" ∈ Sample.orgResponses.*1).
Proof.
  assert (H1 : staleOrAbsent Sample.env Sample.cold (id Sample.u1))
    by (vm_compute; exact I).
  assert (H3 : Sample.fetch Sample.env Sample.u1 false Sample.cold
               = (Resolved (mkCacheCardState Sample.returned None),
                  snd (Sample.fetch Sample.env Sample.u1 false Sample.cold)))
    by (vm_compute; reflexivity).
  assert (H4 : is_Some (Sample.returned !! "person")) by (vm_compute; eauto).
  split; [exact H4 |].
  exact (returned_keys_come_from_responses Sample.userScopes Sample.insightScopes
           Sample.mailOf Sample.noCoercion Sample.env Sample.u1 false Sample.cold
           false _ _ "person" H1 eq_refl H3 H4).
Defined.

(** The profile endpoint fails and the list of direct reports has a hole:
    the fetch makes both remote calls, and what it rejects with is the
    TypeError of the filter, not the failure of the endpoint. *)
Lemma fetch_never_surfaces_a_remote_failure_witness :
  (∀ v e, Sample.noCoercion v = Rejected e -> e = TypeError) ∧
  get_answer Sample.holed (profileRequest "u1") = None ∧
  calls (snd (Sample.fetch Sample.holed Sample.u1 false Sample.cold))
    = [CreateBatch; ExecuteAll Sample.batch; ApiGet (profileRequest "u1")] ∧
  ∃ e, fst (Sample.fetch Sample.holed Sample.u1 false Sample.cold) = Rejected e ∧
       e = TypeError.
Proof.
  assert (H1 : ∀ v e, Sample.noCoercion v = Rejected e -> e = TypeError)
    by (intros v e H; discriminate H).
  assert (H2 : fst (Sample.fetch Sample.holed Sample.u1 false Sample.cold)
               = Rejected TypeError) by (vm_compute; reflexivity).
  split; [exact H1 |]. split; [reflexivity |]. split; [vm_compute; reflexivity |].
  exists TypeError. split; [exact H2 |].
  exact (fetch_never_surfaces_a_remote_failure Sample.userScopes Sample.insightScopes
           Sample.mailOf Sample.noCoercion Sample.holed Sample.u1 false Sample.cold
           TypeError H1 H2).
Defined.

(** The mail search of the sample batch is for the address of [u1]. *)
Lemma mail_search_needs_an_address_witness :
  mailMessages (sections Sample.env) = true ∧
  ∃ address,
    Some "u1@x.com" = Some address ∧ address ≠ EmptyString ∧
    mkBatchRequest "messages"
      ("me/messages?$search=" +:+ dquote +:+ "from:u1@x.com" +:+ dquote)
      (Some validMailSearchScopes) None
    = mkBatchRequest "messages"
        ("me/messages?$search=" +:+ dquote +:+ "from:" +:+ address +:+ dquote)
        (Some ["Mail.ReadBasic"; "Mail.Read"; "Mail.ReadWrite"]) None.
Proof.
  apply (mail_search_needs_an_address Sample.userScopes Sample.insightScopes
           Sample.env "u1" (Some "u1@x.com") false false).
  - apply (list_elem_of_lookup_2 _ 3%nat). vm_compute. reflexivity.
  - reflexivity.
Defined.

(** The record returned for the group holds files only. *)
Lemma contact_or_group_record_holds_mail_and_files_only_witness :
  classifiedContactOrGroup Sample.team ∧
  ∀ k : string,
    is_Some (state (mkCacheCardState {[ "files" := VObj [("value", VBool false)] ]} None)
               !! k) ->
    k = "messages" ∨ k = "files".
Proof.
  assert (H1 : staleOrAbsent Sample.flagged Sample.cold (id Sample.team))
    by (vm_compute; exact I).
  assert (H2 : classifiedContactOrGroup Sample.team) by (left; reflexivity).
  assert (H3 : ∀ resp (name : string),
             executeAll_answer Sample.flagged
               (enqueueRequests Sample.userScopes Sample.insightScopes Sample.flagged []
                  (id Sample.team) (Sample.mailOf Sample.team) false true) = Some resp ->
             name ∈ resp.*1 ->
             name ∈ br_id <$> enqueueRequests Sample.userScopes Sample.insightScopes
                                Sample.flagged [] (id Sample.team)
                                (Sample.mailOf Sample.team) false true).
  { intros resp name Hresp Hname. inversion Hresp; subst.
    apply elem_of_cons in Hname as [-> | Hname]; [by_evaluation | inversion Hname]. }
  assert (H4 : Sample.fetch Sample.flagged Sample.team false Sample.cold
               = (Resolved (mkCacheCardState
                              {[ "files" := VObj [("value", VBool false)] ]} None),
                  snd (Sample.fetch Sample.flagged Sample.team false Sample.cold)))
    by (vm_compute; reflexivity).
  split; [exact H2 |]. intros k.
  exact (contact_or_group_record_holds_mail_and_files_only Sample.userScopes
           Sample.insightScopes Sample.mailOf Sample.noCoercion Sample.flagged Sample.team
           false Sample.cold _ _ k H1 H2 H3 H4).
Defined.

(** With the batch throwing, the profile of [u1] is still returned. *)
Lemma failed_batch_does_not_stop_the_profile_witness :
  executeAll_answer Sample.profileOnly Sample.batch = None ∧
  ∃ w',
    Sample.fetch Sample.profileOnly Sample.u1 false Sample.cold
      = (Resolved (mkCacheCardState {[ "profile" := Sample.umaProfile ]} None), w') ∧
    cache w' !! "u1"
      = Some (mkCacheCardState {[ "profile" := Sample.umaProfile ]} (Some (clock w'))).
Proof.
  assert (H1 : staleOrAbsent Sample.profileOnly Sample.cold (id Sample.u1))
    by (vm_compute; exact I).
  split; [reflexivity |].
  exact (failed_batch_does_not_stop_the_profile Sample.userScopes Sample.insightScopes
           Sample.mailOf Sample.noCoercion Sample.profileOnly Sample.u1 false Sample.cold
           Sample.umaProfile H1 eq_refl eq_refl eq_refl eq_refl eq_refl).
Defined.

(** The warm cache has no direct reports at all, and stays clean. *)
Lemma cache_holds_only_enabled_reports_witness :
  (∀ (key : string) cardState,
     cache Sample.warm !! key = Some cardState -> onlyEnabledReports (state cardState)) ∧
  ∀ (key : string) cardState,
    cache (snd (Sample.fetch Sample.env Sample.team false Sample.warm)) !! key
      = Some cardState ->
    onlyEnabledReports (state cardState).
Proof.
  assert (H1 : ∀ (key : string) cardState,
             cache Sample.warm !! key = Some cardState ->
             onlyEnabledReports (state cardState)).
  { intros key cardState Hkey. destruct (decide (key = "u1")) as [-> | Hne].
    - assert (Hc : cache Sample.warm !! "u1" = Some Sample.cachedCard)
        by (vm_compute; reflexivity).
      rewrite Hc in Hkey. inversion Hkey; subst.
      intros reports r Hd. vm_compute in Hd. discriminate Hd.
    - unfold Sample.warm in Hkey. simpl in Hkey.
      rewrite lookup_singleton_ne in Hkey by congruence. discriminate Hkey. }
  split; [exact H1 |].
  exact (proj1 (cache_holds_only_enabled_reports Sample.userScopes Sample.insightScopes
                  Sample.mailOf Sample.noCoercion Sample.env Sample.team false Sample.warm
                  H1)).
Defined.
